(** * reactive_led: audio-reactive LED strip control

    A shallow embedding of the two programs of the repository,

    - [light.py], the script variant: every audio callback computes the RMS
      amplitude of the chunk, maps it to a colour ([calculate_color]) and
      writes it to the whole strip ([set_leds]);
    - [main.py], the class variant [AudioVisualizer]: the audio callback only
      stores the latest chunk and sets an event, a second thread
      ([update_leds]) wakes on the event, converts the chunk to decibels
      ([get_decibel_level]), to a brightness ([map_brightness]) and writes the
      strip.

    Numbers.  Python floats are idealised as real numbers ([R]); Python ints
    are [Z].  [int()] is truncation towards zero.  Operations that Python
    itself refuses (division by zero) raise the Python exception.  numpy
    operations that would produce [nan] or [inf] together with a
    RuntimeWarning (mean of an empty array, square root of a negative number,
    logarithm of a non-positive number) are flagged as [FloatingPointError],
    which is what numpy raises for them under [np.seterr(all='raise')]: a
    theorem that a function returns [Ok] therefore also says that none of
    these operations was evaluated outside its domain.

    What the idealisation leaves out: rounding (neighbouring amplitudes can
    get the same level, so nothing here claims a strict inequality between
    computed values) and overflow to [inf] at magnitudes far beyond what an
    audio stream delivers.

    Where rounding matters (the band edges of [calculate_color]) a second
    embedding over IEEE 754 binary64 ([calculate_color_b64]) evaluates the
    same expression with the exact double-precision operations. *)

From Stdlib Require Import Reals ZArith List Bool Lra Lia.
From Stdlib Require Floats.
Import ListNotations.

Set Implicit Arguments.

(** ** Python results and exceptions *)

Inductive PyError : Type :=
| ZeroDivisionError
| FloatingPointError
| ValueError
| OverflowError
| NameError
| AttributeError
| PortAudioError.

Inductive PyResult (A : Type) : Type :=
| Ok (a : A)
| Raise (e : PyError).

Arguments Ok {A} a.
Arguments Raise {A} e.

Definition bind {A B : Type} (m : PyResult A) (k : A -> PyResult B) : PyResult B :=
  match m with
  | Ok a => k a
  | Raise e => Raise e
  end.

Notation "x <- m ;; k" := (bind m (fun x => k))
  (at level 61, m at next level, right associativity).

(** ** Python and numpy arithmetic on reals *)

Module PyNum.

Open Scope R_scope.

(** [max(a, b)] returns [a] unless [b > a]; [min(a, b)] returns [a] unless
    [b < a]. *)
Definition py_max (a b : R) : R := if Rlt_dec a b then b else a.
Definition py_min (a b : R) : R := if Rlt_dec b a then b else a.

(** [a / b] on Python numbers. *)
Definition py_div (a b : R) : PyResult R :=
  if Req_dec_T b 0 then Raise ZeroDivisionError else Ok (a / b).

(** [int(x)]: truncation towards zero. *)
Definition py_int (x : R) : Z :=
  if Rle_dec 0 x then Zfloor x else Zceil x.

(** [np.any(xs)]: some element is non-zero. *)
Definition np_any (xs : list R) : bool :=
  existsb (fun x => if Req_dec_T x 0 then false else true) xs.

(** [xs ** 2], element-wise. *)
Definition np_square (xs : list R) : list R := map (fun x => x * x) xs.

Definition np_sum (xs : list R) : R := fold_right Rplus 0 xs.

(** [np.mean(xs)]; the mean of an empty array is [nan]. *)
Definition np_mean (xs : list R) : PyResult R :=
  match xs with
  | [] => Raise FloatingPointError
  | _ :: _ => Ok (np_sum xs / INR (length xs))
  end.

(** [np.sqrt(x)]; [nan] below zero. *)
Definition np_sqrt (x : R) : PyResult R :=
  if Rle_dec 0 x then Ok (sqrt x) else Raise FloatingPointError.

Definition log10 (x : R) : R := ln x / ln 10.

(** [np.log10(x)]; [-inf] at zero and [nan] below. *)
Definition np_log10 (x : R) : PyResult R :=
  if Rlt_dec 0 x then Ok (log10 x) else Raise FloatingPointError.

(** The root-mean-square of a block of samples, as a plain real number. *)
Definition rms (xs : list R) : R :=
  sqrt (np_sum (np_square xs) / INR (length xs)).

End PyNum.

(** ** The LED strip driver (rpi_ws281x), seen from the callers

    The driver is an external collaborator.  A strip object is modelled by
    its pixel count and the calls it has received, oldest first.  [Color]
    records the arguments of [rpi_ws281x.Color] in the order of its
    parameters (red, green, blue). *)

Inductive HwColor : Type :=
| Color (red green blue : Z).

Inductive StripCall : Type :=
| Begin
| SetPixelColor (n : nat) (color : HwColor)
| Show.

Record NeoPixel : Type := mkNeoPixel {
  numPixels : nat;
  calls : list StripCall
}.

Definition Adafruit_NeoPixel (num : nat) : NeoPixel :=
  {| numPixels := num; calls := [] |}.

Definition strip_call (s : NeoPixel) (c : StripCall) : NeoPixel :=
  {| numPixels := numPixels s; calls := calls s ++ [c] |}.

(** [for i in range(lo, lo + n): strip.setPixelColor(i, color)]. *)
Fixpoint fill_from (s : NeoPixel) (lo n : nat) (color : HwColor) : NeoPixel :=
  match n with
  | O => s
  | S n' => fill_from (strip_call s (SetPixelColor lo color)) (S lo) n' color
  end.

(** The blanking loop shared by both programs:
    [for i in range(count): strip.setPixelColor(i, Color(0, 0, 0))] followed
    by [strip.show()]. *)
Definition blank (s : NeoPixel) (count : nat) : NeoPixel :=
  strip_call (fill_from s 0 count (Color 0 0 0)) Show.

(** [sounddevice.CallbackFlags]: a bit field, true when any flag is set. *)
Definition CallbackFlags : Type := N.

Definition flags_bool (status : CallbackFlags) : bool := negb (N.eqb status 0).

(** What the programs print, by message. *)
Inductive Printed : Type :=
| ErrorInAudioStream (status : CallbackFlags)
| StripInitialized
| ListeningForAudio
| Stopping
| AnErrorOccurred (e : PyError)
| LedsCleared
| ErrorLine (e : PyError)
| Exiting.

(** How a [try] body is left: both programs loop forever, so the body only
    ends by Ctrl+C or by an exception. *)
Inductive Raised : Type :=
| KeyboardInterrupt
| PyException (e : PyError).

(** * light.py: the script variant *)

Module Light.

Import PyNum.
Open Scope R_scope.

Inductive LedType : Type :=
| WS281x
| Blinkt.

(** The configuration constants at the top of the script. *)
Record Config : Type := mkConfig {
  LED_COUNT : nat;
  LED_TYPE : LedType;
  SENSITIVITY : R
}.

(** The values the script ships with. *)
Definition shipped : Config :=
  {| LED_COUNT := 30; LED_TYPE := WS281x; SENSITIVITY := 100 |}.

Inductive BlinktCall : Type :=
| SetClearOnExit
| SetBrightness
| SetPixel (x : nat) (r g b : Z)
| BlinktShow
| BlinktClear.

(** The script's globals that change: the strip object [led_strip] (unbound
    until [__main__] creates it), the calls made on the [blinkt] module, and
    the console. *)
Record Script : Type := mkScript {
  led_strip : option NeoPixel;
  blinkt : list BlinktCall;
  stdout : list Printed
}.

Definition print (st : Script) (line : Printed) : Script :=
  {| led_strip := led_strip st; blinkt := blinkt st; stdout := stdout st ++ [line] |}.

Definition with_strip (st : Script) (s : NeoPixel) : Script :=
  {| led_strip := Some s; blinkt := blinkt st; stdout := stdout st |}.

Definition blinkt_call (st : Script) (c : BlinktCall) : Script :=
  {| led_strip := led_strip st; blinkt := blinkt st ++ [c]; stdout := stdout st |}.

(** The globals once the module-level statements have run: [led_strip] is
    not bound yet; the Blinkt branch has called [blinkt.set_clear_on_exit()]. *)
Definition loaded (cfg : Config) : Script :=
  match LED_TYPE cfg with
  | WS281x => {| led_strip := None; blinkt := []; stdout := [] |}
  | Blinkt => {| led_strip := None; blinkt := [SetClearOnExit]; stdout := [] |}
  end.

(** [calculate_color(amplitude)]: blue -> green -> red over three bands of
    width [SENSITIVITY / 3]. *)
Definition calculate_color (cfg : Config) (amplitude : R) : PyResult (Z * Z * Z) :=
  if Rlt_dec amplitude (SENSITIVITY cfg / 3) then
    q <- py_div (255 * amplitude) (SENSITIVITY cfg / 3) ;;
    let r := 0%Z in
    let g := py_int q in
    let b := (255 - g)%Z in
    Ok (r, g, b)
  else if Rlt_dec amplitude (2 * SENSITIVITY cfg / 3) then
    q <- py_div (255 * (amplitude - SENSITIVITY cfg / 3)) (SENSITIVITY cfg / 3) ;;
    let r := py_int q in
    let g := 255%Z in
    let b := 0%Z in
    Ok (r, g, b)
  else
    q <- py_div (255 * (amplitude - 2 * SENSITIVITY cfg / 3)) (SENSITIVITY cfg / 3) ;;
    let r := 255%Z in
    let g := (255 - py_int q)%Z in
    let b := 0%Z in
    Ok (r, g, b).

(** [for i, color in enumerate(led_data)] in the WS281x branch, from index
    [i] on: the colour goes to the driver as [Color(g, r, b)]. *)
Fixpoint set_leds_ws281x (s : NeoPixel) (i : nat) (led_data : list (Z * Z * Z)) : NeoPixel :=
  match led_data with
  | [] => s
  | (r, g, b) :: rest =>
      set_leds_ws281x (strip_call s (SetPixelColor i (Color g r b))) (S i) rest
  end.

(** The same loop in the Blinkt branch: [blinkt.set_pixel(i, r, g, b)]. *)
Fixpoint set_leds_blinkt (st : Script) (i : nat) (led_data : list (Z * Z * Z)) : Script :=
  match led_data with
  | [] => st
  | (r, g, b) :: rest => set_leds_blinkt (blinkt_call st (SetPixel i r g b)) (S i) rest
  end.

Definition set_leds (cfg : Config) (st : Script) (led_data : list (Z * Z * Z)) : PyResult Script :=
  match LED_TYPE cfg with
  | WS281x =>
      match led_strip st with
      | None => Raise NameError
      | Some s => Ok (with_strip st (strip_call (set_leds_ws281x s 0 led_data) Show))
      end
  | Blinkt => Ok (blinkt_call (set_leds_blinkt st 0 led_data) BlinktShow)
  end.

(** [for _ in range(n): led_colors.append(calculate_color(amplitude))]. *)
Fixpoint led_colors_loop (cfg : Config) (amplitude : R) (n : nat)
    (led_colors : list (Z * Z * Z)) : PyResult (list (Z * Z * Z)) :=
  match n with
  | O => Ok led_colors
  | S n' =>
      c <- calculate_color cfg amplitude ;;
      led_colors_loop cfg amplitude n' (led_colors ++ [c])
  end.

(** [audio_callback(indata, frames, time, status)].  [indata] holds the
    samples of the chunk (the stream is mono, so the array of shape
    (frames, 1) is modelled by the list of its samples). *)
Definition audio_callback (cfg : Config) (st : Script)
    (indata : list R) (frames : Z) (time : unit) (status : CallbackFlags) : PyResult Script :=
  if flags_bool status then
    Ok (print st (ErrorInAudioStream status))
  else
    m <- np_mean (np_square indata) ;;
    amplitude <- np_sqrt m ;;
    led_colors <- led_colors_loop cfg amplitude (LED_COUNT cfg) [] ;;
    set_leds cfg st led_colors.

(** The [except] clauses of [__main__]. *)
Definition main_except (st : Script) (raised : Raised) : Script :=
  match raised with
  | KeyboardInterrupt => print st Stopping
  | PyException e => print st (AnErrorOccurred e)
  end.

(** The [finally] clause of [__main__]: turn the LEDs off. *)
Definition main_finally (cfg : Config) (st : Script) : PyResult Script :=
  match LED_TYPE cfg with
  | WS281x =>
      match led_strip st with
      | None => Raise NameError
      | Some s => Ok (print (with_strip st (blank s (LED_COUNT cfg))) LedsCleared)
      end
  | Blinkt => Ok (print (blinkt_call (blinkt_call st BlinktClear) BlinktShow) LedsCleared)
  end.

(** The initialisation at the head of the [try] body. *)
Definition main_init (cfg : Config) (st : Script) : Script :=
  match LED_TYPE cfg with
  | WS281x =>
      print (with_strip st (strip_call (Adafruit_NeoPixel (LED_COUNT cfg)) Begin))
            StripInitialized
  | Blinkt => print (blinkt_call st SetBrightness) StripInitialized
  end.

(** [__main__] with the strip initialised: [body] is what the audio callbacks
    do to the globals while the main thread sleeps inside the [with] block,
    [raised] is what ends the sleep. *)
Definition main (cfg : Config) (st : Script) (body : Script -> Script)
    (raised : Raised) : PyResult Script :=
  main_finally cfg (main_except (body (print (main_init cfg st) ListeningForAudio)) raised).

End Light.

(** ** [calculate_color] over IEEE 754 binary64

    The same function with the operations Python performs on its floats:
    every [*], [-], [/] is the correctly rounded double-precision operation,
    [<] is the IEEE comparison, [/] raises on a zero divisor, and [int()]
    truncates the exact value of the double ([nan] and the infinities have
    none). *)

Module LightB64.

Import Floats.
Open Scope float_scope.

(** [int(x)] for a double [x]. *)
Definition py_int (x : float) : PyResult Z :=
  match Prim2SF x with
  | S754_zero _ => Ok 0%Z
  | S754_finite s m e =>
      let magnitude :=
        match e with
        | Z0 => Zpos m
        | Zpos p => Z.shiftl (Zpos m) (Zpos p)
        | Zneg p => Z.shiftr (Zpos m) (Zpos p)
        end in
      Ok (if s then (- magnitude)%Z else magnitude)
  | S754_infinity _ => Raise OverflowError
  | S754_nan => Raise ValueError
  end.

Definition py_div (a b : float) : PyResult float :=
  if (b =? 0) then Raise ZeroDivisionError else Ok (a / b).

Definition calculate_color_b64 (SENSITIVITY amplitude : float) : PyResult (Z * Z * Z) :=
  if (amplitude <? SENSITIVITY / 3) then
    q <- py_div (255 * amplitude) (SENSITIVITY / 3) ;;
    g <- py_int q ;;
    Ok (0%Z, g, (255 - g)%Z)
  else if (amplitude <? 2 * SENSITIVITY / 3) then
    q <- py_div (255 * (amplitude - SENSITIVITY / 3)) (SENSITIVITY / 3) ;;
    r <- py_int q ;;
    Ok (r, 255%Z, 0%Z)
  else
    q <- py_div (255 * (amplitude - 2 * SENSITIVITY / 3)) (SENSITIVITY / 3) ;;
    d <- py_int q ;;
    Ok (255%Z, (255 - d)%Z, 0%Z).

(** The shipped sensitivity and the four band edges computed from it, as
    Python computes them. *)
Definition SENSITIVITY : float := 100.
Definition edge0 : float := 0.
Definition edge1 : float := SENSITIVITY / 3.
Definition edge2 : float := 2 * SENSITIVITY / 3.
Definition edge3 : float := SENSITIVITY.

(** An amplitude of twice the sensitivity. *)
Definition beyond : float := 200.

End LightB64.

(** * main.py: the class variant *)

Module Main.

Import PyNum.
Open Scope R_scope.

(** The attributes [__init__] copies from its arguments and nothing writes
    afterwards. *)
Record Config : Type := mkConfig {
  led_count : nat;
  led_pin : Z;
  led_freq_hz : Z;
  led_dma : Z;
  led_invert : bool;
  led_brightness : Z;
  led_channel : Z;
  led_strip : Z;
  sample_rate : Z;
  chunk_size : Z;
  min_db : R;
  max_db : R;
  sensitivity : R
}.

Inductive InputStream : Type :=
| StreamCreated
| StreamStarted
| StreamClosed.

(** An [AudioVisualizer] object: the configuration and the attributes the
    threads share.  [audio_data] holds the samples of the latest chunk (the
    stream is mono: the array of shape (frames, 1) and its column
    [audio_data[:, 0]] are modelled by the list of samples); [audio_event] is
    the flag of the [threading.Event]. *)
Record AudioVisualizer : Type := mkAudioVisualizer {
  config : Config;
  strip : option NeoPixel;
  audio_data : list R;
  audio_event : bool;
  running : bool;
  stream : option InputStream
}.

Definition set_strip (self : AudioVisualizer) (s : option NeoPixel) : AudioVisualizer :=
  {| config := config self; strip := s; audio_data := audio_data self;
     audio_event := audio_event self; running := running self; stream := stream self |}.

Definition set_audio_data (self : AudioVisualizer) (d : list R) : AudioVisualizer :=
  {| config := config self; strip := strip self; audio_data := d;
     audio_event := audio_event self; running := running self; stream := stream self |}.

Definition set_audio_event (self : AudioVisualizer) (b : bool) : AudioVisualizer :=
  {| config := config self; strip := strip self; audio_data := audio_data self;
     audio_event := b; running := running self; stream := stream self |}.

Definition set_running (self : AudioVisualizer) (b : bool) : AudioVisualizer :=
  {| config := config self; strip := strip self; audio_data := audio_data self;
     audio_event := audio_event self; running := b; stream := stream self |}.

Definition set_stream (self : AudioVisualizer) (s : option InputStream) : AudioVisualizer :=
  {| config := config self; strip := strip self; audio_data := audio_data self;
     audio_event := audio_event self; running := running self; stream := s |}.

(** [AudioVisualizer.__init__]: thirteen assignments from the arguments, then
    the five initial values of the shared attributes.  No statement of it can
    raise, and none compares [min_db] with [max_db]. *)
Definition __init__ (led_count : nat) (led_pin led_freq_hz led_dma : Z) (led_invert : bool)
    (led_brightness led_channel led_strip sample_rate chunk_size : Z)
    (min_db max_db sensitivity : R) : PyResult AudioVisualizer :=
  Ok {| config := mkConfig led_count led_pin led_freq_hz led_dma led_invert
                    led_brightness led_channel led_strip sample_rate chunk_size
                    min_db max_db sensitivity;
        strip := None;
        audio_data := [];
        audio_event := false;
        running := true;
        stream := None |}.

(** The object [__init__] leaves behind for a configuration. *)
Definition constructed (c : Config) : AudioVisualizer :=
  {| config := c; strip := None; audio_data := []; audio_event := false;
     running := true; stream := None |}.

Definition p_ref : R := 20 / 1000000.

(** [get_decibel_level(audio_chunk)]. *)
Definition get_decibel_level (self : AudioVisualizer) (audio_chunk : list R) : PyResult R :=
  if np_any audio_chunk then
    m <- np_mean (np_square audio_chunk) ;;
    rms <- np_sqrt m ;;
    if Rlt_dec 0 rms then
      l <- np_log10 (rms / p_ref) ;;
      let db := 20 * l in
      Ok (py_max (min_db (config self)) db)
    else
      Ok (min_db (config self))
  else
    Ok (min_db (config self)).

(** [map_brightness(db)]. *)
Definition map_brightness (self : AudioVisualizer) (db : R) : PyResult Z :=
  let clamped_db := py_max (min_db (config self)) (py_min (max_db (config self)) db) in
  q <- py_div (clamped_db - min_db (config self))
              (max_db (config self) - min_db (config self)) ;;
  let brightness := py_int (q * 255) in
  Ok brightness.

(** The program counter of the thread that runs [update_leds]. *)
Inductive LedThread : Type :=
| NotStarted
| AtWhile      (* about to test [self.running] *)
| AtWait       (* in [self.audio_event.wait()] *)
| AtClear      (* about to call [self.audio_event.clear()] *)
| AtCheck      (* about to test [not self.running] *)
| AtRender     (* about to run the body under [if len(self.audio_data) > 0] *)
| Returned
| Died (e : PyError).

(** The process: the object, the console and the LED thread. *)
Record Process : Type := mkProcess {
  self : AudioVisualizer;
  stdout : list Printed;
  led_thread : LedThread
}.

Definition with_self (p : Process) (v : AudioVisualizer) : Process :=
  {| self := v; stdout := stdout p; led_thread := led_thread p |}.

Definition print (p : Process) (line : Printed) : Process :=
  {| self := self p; stdout := stdout p ++ [line]; led_thread := led_thread p |}.

Definition goto (p : Process) (pc : LedThread) : Process :=
  {| self := self p; stdout := stdout p; led_thread := pc |}.

(** [audio_callback(indata, frames, time, status)], run by the audio thread. *)
Definition audio_callback (p : Process)
    (indata : list R) (frames : Z) (time : unit) (status : CallbackFlags) : Process :=
  if flags_bool status then
    print p (ErrorInAudioStream status)
  else
    let p1 := with_self p (set_audio_data (self p) indata) in
    with_self p1 (set_audio_event (self p1) true).

(** The part of the loop body of [update_leds] after the two tests: one
    frame from the chunk that is in [self.audio_data] now. *)
Definition render (v : AudioVisualizer) : PyResult AudioVisualizer :=
  if (0 <? length (audio_data v))%nat then
    db <- get_decibel_level v (audio_data v) ;;
    brightness <- map_brightness v db ;;
    match strip v with
    | None => Raise AttributeError
    | Some s =>
        Ok (set_strip v
              (Some (strip_call (fill_from s 0 (numPixels s) (Color 0 brightness 0)) Show)))
    end
  else
    Ok v.

(** One step of the LED thread; [None] when it cannot move (blocked in
    [wait()], not started, or over). *)
Definition update_leds_step (p : Process) : option Process :=
  match led_thread p with
  | AtWhile => Some (goto p (if running (self p) then AtWait else Returned))
  | AtWait => if audio_event (self p) then Some (goto p AtClear) else None
  | AtClear => Some (goto (with_self p (set_audio_event (self p) false)) AtCheck)
  | AtCheck => Some (goto p (if negb (running (self p)) then Returned else AtRender))
  | AtRender =>
      match render (self p) with
      | Ok v => Some (goto (with_self p v) AtWhile)
      | Raise e => Some (goto p (Died e))
      end
  | NotStarted | Returned | Died _ => None
  end.

(** The LED thread left alone for at most [fuel] steps. *)
Fixpoint update_leds (fuel : nat) (p : Process) : Process :=
  match fuel with
  | O => p
  | S fuel' =>
      match update_leds_step p with
      | Some p' => update_leds fuel' p'
      | None => p
      end
  end.

(** Where the [try] body of [run] is when it is left. *)
Inductive TryStage : Type :=
| AtInputStream   (* [sd.InputStream(...)] raises *)
| AtStreamStart   (* [self.stream.start()] raises *)
| AtThreadStart   (* creating or starting the thread raises *)
| AtSleep.        (* inside [while True: time.sleep(1)] *)

(** [run] before the [try]: create the strip and call [begin()]. *)
Definition run_setup (p : Process) : Process :=
  with_self p (set_strip (self p)
                 (Some (strip_call (Adafruit_NeoPixel (led_count (config (self p)))) Begin))).

(** The [try] body of [run] up to [stage]. *)
Definition run_try (p : Process) (stage : TryStage) : Process :=
  match stage with
  | AtInputStream => p
  | AtStreamStart => with_self p (set_stream (self p) (Some StreamCreated))
  | AtThreadStart => with_self p (set_stream (self p) (Some StreamStarted))
  | AtSleep =>
      print (goto (with_self p (set_stream (self p) (Some StreamStarted))) AtWhile)
            ListeningForAudio
  end.

(** The two [except] clauses of [run]. *)
Definition run_except (p : Process) (raised : Raised) : PyResult Process :=
  match raised with
  | PyException e => Ok (print p (ErrorLine e))
  | KeyboardInterrupt =>
      let p1 := print p Stopping in
      let p2 := with_self p1 (set_running (self p1) false) in
      let p3 := with_self p2 (set_audio_event (self p2) true) in
      let p4 := match stream (self p3) with
                | Some _ => with_self p3 (set_stream (self p3) (Some StreamClosed))
                | None => p3
                end in
      match strip (self p4) with
      | None => Raise AttributeError
      | Some s =>
          Ok (print (with_self p4 (set_strip (self p4) (Some (blank s (numPixels s))))) Exiting)
      end
  end.

(** What can happen between the start of the LED thread and the end of the
    [try] body: the audio thread delivers a chunk, or the LED thread takes a
    step. *)
Inductive Event : Type :=
| Deliver (indata : list R) (frames : Z) (status : CallbackFlags)
| LedStep.

Definition exec_event (p : Process) (ev : Event) : Process :=
  match ev with
  | Deliver indata frames status => audio_callback p indata frames tt status
  | LedStep =>
      match update_leds_step p with
      | Some p' => p'
      | None => p
      end
  end.

Definition exec (p : Process) (schedule : list Event) : Process :=
  fold_left exec_event schedule p.

(** [run]: set up, run the [try] body up to [stage], let [schedule] happen
    when the body reached its sleep loop, then handle [raised]. *)
Definition run (p : Process) (stage : TryStage) (schedule : list Event)
    (raised : Raised) : PyResult Process :=
  let p1 := run_try (run_setup p) stage in
  let p2 := match stage with
            | AtSleep => exec p1 schedule
            | _ => p1
            end in
  run_except p2 raised.

(** The process before [visualizer.run()]. *)
Definition start (v : AudioVisualizer) : Process :=
  {| self := v; stdout := []; led_thread := NotStarted |}.

(** The strip calls a process has made so far. *)
Definition strip_calls (p : Process) : list StripCall :=
  match strip (self p) with
  | Some s => calls s
  | None => []
  end.

(** The configuration under [if __name__ == "__main__"]
    ([ws.WS2811_STRIP_GRB] is 0x00081000). *)
Definition shipped_config : Config :=
  mkConfig 300 18 800000 10 false 255 0 528384 44100 512 40 90 200.

Definition shipped : AudioVisualizer := constructed shipped_config.

End Main.

(** * The vocabulary of the properties

    Predicates and reference values the theorems below are stated with. *)

Section Vocabulary.

Import PyNum.
Import Main.
Open Scope R_scope.


(** A channel value the strip can show. *)
Definition channel (z : Z) : Prop := (0 <= z <= 255)%Z.

Definition channels_in_range (c : Z * Z * Z) : Prop :=
  let '(r, g, b) := c in channel r /\ channel g /\ channel b.

(** Two colours that differ by at most one unit in every channel. *)
Definition within_one (c d : Z * Z * Z) : Prop :=
  let '(r, g, b) := c in
  let '(r', g', b') := d in
  (Z.abs (r - r') <= 1 /\ Z.abs (g - g') <= 1 /\ Z.abs (b - b') <= 1)%Z.

(** The calls of [for i in range(lo, lo + n): setPixelColor(i, color)]. *)
Definition fill_calls (lo n : nat) (color : HwColor) : list StripCall :=
  map (fun i => SetPixelColor i color) (seq lo n).

(** The calls of one blanking: every pixel black, then [show()]. *)
Definition blank_calls (count : nat) : list StripCall :=
  fill_calls 0 count (Color 0 0 0) ++ [Show].

(** An abstract RGB triple as the WS281x branch hands it to the driver: red
    and green exchanged. *)
Definition grb_call (i : nat) (c : Z * Z * Z) : StripCall :=
  let '(r, g, b) := c in SetPixelColor i (Color g r b).

Fixpoint grb_calls (i : nat) (led_data : list (Z * Z * Z)) : list StripCall :=
  match led_data with
  | [] => []
  | c :: rest => grb_call i c :: grb_calls (S i) rest
  end.

(** The calls of one rendered frame for [chunk] on a strip of [n] pixels:
    nothing for an empty chunk, otherwise every pixel green at the brightness
    of the chunk's loudness, then [show()]. *)
Definition frame_calls (v : AudioVisualizer) (n : nat) (chunk : list R)
    : PyResult (list StripCall) :=
  match chunk with
  | [] => Ok []
  | _ :: _ =>
      db <- get_decibel_level v chunk ;;
      brightness <- map_brightness v db ;;
      Ok (fill_calls 0 n (Color 0 brightness 0) ++ [Show])
  end.

(** The strip exists and has [n] pixels. *)
Definition strip_ready (n : nat) (p : Process) : Prop :=
  exists s : NeoPixel, strip (self p) = Some s /\ numPixels s = n.

(** The shipped script right after [led_strip.begin()]. *)
Definition script_after_begin : Light.Script :=
  Light.main_init Light.shipped (Light.loaded Light.shipped).

(** The shipped visualizer once [run] has started the LED thread and the
    thread has reached its first [wait()]. *)
Definition listening : Process :=
  update_leds 1 (run_try (run_setup (start shipped)) AtSleep).

(** The schedule of a late frame: the LED thread reaches [wait()], one chunk
    arrives, the thread wakes, clears the event and passes the test of
    [self.running]; then Ctrl+C. *)
Definition late_frame_schedule : list Event :=
  [LedStep; Deliver [1] 1 0%N; LedStep; LedStep; LedStep].

(** The [show()] calls among the strip calls of a process: the frames it has
    committed. *)
Definition is_show (c : StripCall) : bool :=
  match c with
  | Show => true
  | _ => false
  end.

Definition shows (p : Process) : nat := length (filter is_show (strip_calls p)).

(** A delivery with an empty status, the only event that writes the slot. *)
Definition good_delivery (ev : Event) : bool :=
  match ev with
  | Deliver _ _ status => negb (flags_bool status)
  | LedStep => false
  end.

Definition good_deliveries (schedule : list Event) : nat :=
  length (filter good_delivery schedule).

(** The LED thread has not yet passed the test [if not self.running] of its
    current round. *)
Definition before_running_test (pc : LedThread) : bool :=
  match pc with
  | AtWhile | AtWait | AtClear | AtCheck => true
  | _ => false
  end.

(** Wake-ups the LED thread still owes a frame for: the event when it is
    set, and the round in progress once the event has been cleared. *)
Definition pending (p : Process) : nat :=
  ((if audio_event (self p) then 1 else 0) +
   match led_thread p with
   | AtCheck | AtRender => 1
   | _ => 0
   end)%nat.

(** The Blinkt counterpart of [grb_calls]: the triple goes through as it is. *)
Fixpoint rgb_pixels (i : nat) (led_data : list (Z * Z * Z)) : list Light.BlinktCall :=
  match led_data with
  | [] => []
  | (r, g, b) :: rest => Light.SetPixel i r g b :: rgb_pixels (S i) rest
  end.

(** A schedule with a good delivery, a delivery with status 2
    ([paInputOverflow]) and steps of the LED thread in between. *)
Definition mixed_schedule : list Event :=
  [Deliver [1 / 2] 1 0%N; LedStep; Deliver [1] 1 2%N; LedStep;
   LedStep; LedStep; LedStep; LedStep; LedStep].

End Vocabulary.

(** * Facts about the arithmetic *)

Section Arithmetic.

Import PyNum.
Open Scope R_scope.

Lemma py_max_Rmax (a b : R) : py_max a b = Rmax a b.
Proof.
  unfold py_max, Rmax.
  destruct (Rlt_dec a b), (Rle_dec a b); try reflexivity; lra.
Qed.

Lemma py_min_Rmin (a b : R) : py_min a b = Rmin a b.
Proof.
  unfold py_min, Rmin.
  destruct (Rlt_dec b a), (Rle_dec a b); try reflexivity; lra.
Qed.

Lemma py_int_IZR (z : Z) : py_int (IZR z) = z.
Proof.
  unfold py_int, Zceil.
  destruct (Rle_dec 0 (IZR z)).
  - apply ZfloorZ.
  - rewrite ZfloorNZ. lia.
Qed.

Lemma py_int_nonneg (x : R) : 0 <= x -> (0 <= py_int x)%Z.
Proof.
  intros Hx. unfold py_int.
  destruct (Rle_dec 0 x) as [_ | Hn]; [ | contradiction ].
  apply Zfloor_lub. exact Hx.
Qed.

Lemma py_int_upper (x : R) (z : Z) : 0 <= x -> x <= IZR z -> (py_int x <= z)%Z.
Proof.
  intros Hx Hz. unfold py_int.
  destruct (Rle_dec 0 x) as [_ | Hn]; [ | contradiction ].
  rewrite <- (ZfloorZ z). apply Zfloor_le. exact Hz.
Qed.

Lemma py_int_le (x y : R) : x <= y -> (py_int x <= py_int y)%Z.
Proof.
  intros Hxy. unfold py_int.
  destruct (Rle_dec 0 x) as [Hx | Hx], (Rle_dec 0 y) as [Hy | Hy].
  - apply Zfloor_le; exact Hxy.
  - lra.
  - apply Z.le_trans with 0%Z.
    + rewrite <- (ZfloorZ 0). unfold Zceil.
      assert (H : (Zfloor (IZR 0) <= Zfloor (- x))%Z) by (apply Zfloor_le; lra).
      rewrite (ZfloorZ 0) in *. lia.
    + apply Zfloor_lub. exact Hy.
  - apply Zceil_le; exact Hxy.
Qed.

Lemma py_div_ok (a b : R) : b <> 0 -> py_div a b = Ok (a / b).
Proof.
  intros Hb. unfold py_div.
  destruct (Req_dec_T b 0); [ contradiction | reflexivity ].
Qed.

Lemma py_div_zero (a : R) : py_div a 0 = Raise ZeroDivisionError.
Proof.
  unfold py_div.
  destruct (Req_dec_T 0 0) as [_ | Hn]; [ reflexivity | contradiction Hn; reflexivity ].
Qed.

Lemma np_any_false (xs : list R) :
  np_any xs = false <-> Forall (fun x => x = 0) xs.
Proof.
  unfold np_any. induction xs as [| x xs IH]; simpl.
  - split; [ constructor | reflexivity ].
  - destruct (Req_dec_T x 0) as [Hx | Hx]; simpl.
    + rewrite IH. split.
      * intros H. constructor; assumption.
      * intros H. inversion H; assumption.
    + split; [ discriminate | ].
      intros H. inversion H; contradiction.
Qed.

Lemma np_sum_square_nonneg (xs : list R) : 0 <= np_sum (np_square xs).
Proof.
  induction xs as [| x xs IH]; simpl.
  - lra.
  - pose proof (Rle_0_sqr x) as Hx. unfold Rsqr in Hx. lra.
Qed.

Lemma np_mean_square (xs : list R) :
  xs <> [] ->
  np_mean (np_square xs) = Ok (np_sum (np_square xs) / INR (length xs)).
Proof.
  destruct xs as [| x xs]; [ intros H; contradiction H; reflexivity | ].
  intros _. unfold np_square at 1. simpl.
  unfold np_square. rewrite length_map. reflexivity.
Qed.

Lemma mean_square_nonneg (xs : list R) :
  0 <= np_sum (np_square xs) / INR (length xs).
Proof.
  destruct xs as [| x xs].
  - simpl. unfold Rdiv. rewrite Rmult_0_l. lra.
  - apply Rmult_le_pos.
    + apply np_sum_square_nonneg.
    + left. apply Rinv_0_lt_compat. apply lt_0_INR. simpl. lia.
Qed.

Lemma rms_nonneg (xs : list R) : 0 <= rms xs.
Proof. unfold rms. apply sqrt_pos. Qed.

Lemma ln_10_pos : 0 < ln 10.
Proof. rewrite <- ln_1. apply ln_increasing; lra. Qed.

Lemma log10_1 : log10 1 = 0.
Proof. unfold log10. rewrite ln_1. unfold Rdiv. apply Rmult_0_l. Qed.

Lemma log10_increasing (x y : R) : 0 < x -> x < y -> log10 x < log10 y.
Proof.
  intros Hx Hxy. unfold log10, Rdiv.
  apply Rmult_lt_compat_r.
  - apply Rinv_0_lt_compat. exact ln_10_pos.
  - apply ln_increasing; assumption.
Qed.

Lemma p_ref_pos : 0 < Main.p_ref.
Proof. unfold Main.p_ref. lra. Qed.

Lemma np_sum_square_repeat (a : R) (n : nat) :
  np_sum (np_square (repeat a n)) = INR n * (a * a).
Proof.
  induction n as [| n IH].
  - simpl. lra.
  - rewrite S_INR.
    change (np_sum (np_square (repeat a (S n))))
      with (a * a + np_sum (np_square (repeat a n))).
    rewrite IH. lra.
Qed.

Lemma rms_repeat (a : R) (n : nat) : (0 < n)%nat -> 0 <= a -> rms (repeat a n) = a.
Proof.
  intros Hn Ha. unfold rms.
  rewrite np_sum_square_repeat, repeat_length.
  replace (INR n * (a * a) / INR n) with (a * a).
  - apply sqrt_square. exact Ha.
  - field. apply not_0_INR. lia.
Qed.

Lemma np_any_repeat (a : R) (n : nat) : (0 < n)%nat -> a <> 0 -> np_any (repeat a n) = true.
Proof.
  intros Hn Ha. destruct n as [| n]; [ lia | ].
  simpl. destruct (Req_dec_T a 0); [ contradiction | reflexivity ].
Qed.

End Arithmetic.

(** * The loudness extractor: [get_decibel_level] *)

Section Loudness.

Import PyNum.
Import Main.
Open Scope R_scope.

(** The function as one expression: no operation is flagged on the way. *)
Lemma get_decibel_level_eq (v : AudioVisualizer) (chunk : list R) :
  get_decibel_level v chunk =
  Ok (if np_any chunk then
        if Rlt_dec 0 (rms chunk)
        then py_max (min_db (config v)) (20 * log10 (rms chunk / p_ref))
        else min_db (config v)
      else min_db (config v)).
Proof.
  unfold get_decibel_level.
  destruct (np_any chunk) eqn:Hany; [ | reflexivity ].
  assert (Hne : chunk <> []) by (intros ->; discriminate Hany).
  rewrite (np_mean_square Hne). cbn [bind].
  unfold np_sqrt.
  destruct (Rle_dec 0 (np_sum (np_square chunk) / INR (length chunk))) as [_ | Hneg];
    [ | contradiction Hneg; apply mean_square_nonneg ].
  cbn [bind]. fold (rms chunk).
  destruct (Rlt_dec 0 (rms chunk)) as [Hpos | _]; [ | reflexivity ].
  unfold np_log10.
  destruct (Rlt_dec 0 (rms chunk / p_ref)) as [_ | Hn]; [ reflexivity | ].
  contradiction Hn. apply Rdiv_lt_0_compat; [ exact Hpos | exact p_ref_pos ].
Qed.

(** The loudness of a block of [n] samples of the same positive amplitude. *)
Lemma get_decibel_level_constant (v : AudioVisualizer) (a : R) (n : nat) :
  (0 < n)%nat -> 0 < a ->
  get_decibel_level v (repeat a n) =
  Ok (Rmax (min_db (config v)) (20 * log10 (a / p_ref))).
Proof.
  intros Hn Ha.
  rewrite get_decibel_level_eq.
  rewrite np_any_repeat by (try assumption; lra).
  rewrite rms_repeat by (try assumption; lra).
  destruct (Rlt_dec 0 a) as [_ | Hna]; [ | contradiction ].
  rewrite py_max_Rmax. reflexivity.
Qed.

(** C1.  For every audio chunk, [get_decibel_level] returns a value and
    raises nothing; the value is exactly the floor [min_db] when all samples
    are zero or the RMS is zero, and otherwise the larger of the floor and
    [20 * log10 (rms / p_ref)] with [p_ref = 20e-6]; in that case the argument
    of the logarithm is positive, and since the result is [Ok] the logarithm
    was never evaluated at zero. *)
Theorem get_decibel_level_spec (v : AudioVisualizer) (chunk : list R) :
  (exists l : R, get_decibel_level v chunk = Ok l) /\
  (Forall (fun x => x = 0) chunk \/ rms chunk = 0 ->
   get_decibel_level v chunk = Ok (min_db (config v))) /\
  (~ (Forall (fun x => x = 0) chunk \/ rms chunk = 0) ->
   0 < rms chunk / p_ref /\
   get_decibel_level v chunk =
   Ok (Rmax (min_db (config v)) (20 * log10 (rms chunk / (20 / 1000000))))).
Proof.
  rewrite get_decibel_level_eq.
  split; [ eexists; reflexivity | ].
  split.
  - intros [Hzero | Hrms].
    + apply np_any_false in Hzero. rewrite Hzero. reflexivity.
    + rewrite Hrms.
      destruct (Rlt_dec 0 0) as [Habs | _]; [ lra | ].
      destruct (np_any chunk); reflexivity.
  - intros Hnot.
    assert (Hany : np_any chunk = true).
    { destruct (np_any chunk) eqn:E; [ reflexivity | ].
      contradiction Hnot. left. apply np_any_false. exact E. }
    assert (Hpos : 0 < rms chunk).
    { destruct (rms_nonneg chunk) as [Hlt | Heq]; [ exact Hlt | ].
      contradiction Hnot. right. symmetry. exact Heq. }
    split.
    + apply Rdiv_lt_0_compat; [ exact Hpos | exact p_ref_pos ].
    + rewrite Hany.
      destruct (Rlt_dec 0 (rms chunk)) as [_ | Hn]; [ | contradiction ].
      rewrite py_max_Rmax. reflexivity.
Qed.




End Loudness.

(** * The brightness mapper: [map_brightness], and construction *)

Section Brightness.

Import PyNum.
Import Main.
Open Scope R_scope.

(** With [min_db < max_db] the mapper is the truncation of a linear rescaling
    of the clamped loudness. *)
Lemma map_brightness_eq (v : AudioVisualizer) (db : R) :
  min_db (config v) < max_db (config v) ->
  map_brightness v db =
  Ok (py_int ((Rmax (min_db (config v)) (Rmin (max_db (config v)) db) - min_db (config v))
              / (max_db (config v) - min_db (config v)) * 255)).
Proof.
  intros Hlt. unfold map_brightness.
  rewrite py_div_ok by lra.
  rewrite py_max_Rmax, py_min_Rmin. reflexivity.
Qed.

Lemma clamp_le (lo hi x y : R) :
  x <= y -> Rmax lo (Rmin hi x) <= Rmax lo (Rmin hi y).
Proof.
  intros Hxy.
  apply Rle_max_compat_l, Rle_min_compat_l. exact Hxy.
Qed.

(** C3.  With [min_db < max_db] the brightness is 0 at the floor and 255 at
    the ceiling, every loudness below the floor maps like the floor, every
    loudness above the ceiling maps like the ceiling, and the mapping is
    monotone: a louder input never gets a smaller brightness. *)
Theorem map_brightness_monotone_clamps (v : AudioVisualizer) :
  min_db (config v) < max_db (config v) ->
  map_brightness v (min_db (config v)) = Ok 0%Z /\
  map_brightness v (max_db (config v)) = Ok 255%Z /\
  (forall x, x < min_db (config v) ->
     map_brightness v x = map_brightness v (min_db (config v))) /\
  (forall x, max_db (config v) < x ->
     map_brightness v x = map_brightness v (max_db (config v))) /\
  (forall x y, x <= y ->
     exists bx by_ : Z,
       map_brightness v x = Ok bx /\ map_brightness v y = Ok by_ /\ (bx <= by_)%Z).
Proof.
  intros Hlt.
  set (lo := min_db (config v)) in *. set (hi := max_db (config v)) in *.
  assert (Hclamp_lo : forall x, x <= lo -> Rmax lo (Rmin hi x) = lo).
  { intros x Hx. rewrite Rmin_right by lra. apply Rmax_left. exact Hx. }
  assert (Hclamp_hi : forall x, hi <= x -> Rmax lo (Rmin hi x) = hi).
  { intros x Hx. rewrite Rmin_left by lra. apply Rmax_right. lra. }
  repeat split.
  - rewrite map_brightness_eq by exact Hlt. fold lo hi.
    rewrite Hclamp_lo by lra.
    replace ((lo - lo) / (hi - lo) * 255) with (IZR 0) by (field; lra).
    rewrite py_int_IZR. reflexivity.
  - rewrite map_brightness_eq by exact Hlt. fold lo hi.
    rewrite Hclamp_hi by lra.
    replace ((hi - lo) / (hi - lo) * 255) with (IZR 255) by (field; lra).
    rewrite py_int_IZR. reflexivity.
  - intros x Hx. rewrite !map_brightness_eq by exact Hlt. fold lo hi.
    rewrite !Hclamp_lo by lra. reflexivity.
  - intros x Hx. rewrite !map_brightness_eq by exact Hlt. fold lo hi.
    rewrite !Hclamp_hi by lra. reflexivity.
  - intros x y Hxy. rewrite !map_brightness_eq by exact Hlt. fold lo hi.
    do 2 eexists. split; [ reflexivity | ]. split; [ reflexivity | ].
    apply py_int_le.
    pose proof (clamp_le lo hi Hxy) as Hc.
    apply Rmult_le_compat_r; [ lra | ].
    unfold Rdiv. apply Rmult_le_compat_r; [ | lra ].
    left. apply Rinv_0_lt_compat. lra.
Qed.

Lemma map_brightness_monotone_clamps_witness :
  map_brightness shipped 40 = Ok 0%Z /\
  map_brightness shipped 90 = Ok 255%Z /\
  (forall x, x < 40 -> map_brightness shipped x = map_brightness shipped 40) /\
  (forall x, 90 < x -> map_brightness shipped x = map_brightness shipped 90) /\
  (forall x y, x <= y ->
     exists bx by_ : Z,
       map_brightness shipped x = Ok bx /\ map_brightness shipped y = Ok by_ /\
       (bx <= by_)%Z).
Proof.
  apply (@map_brightness_monotone_clamps shipped). simpl. lra.
Defined.

(** With [min_db = max_db] every call of the mapper divides by zero. *)
Lemma map_brightness_equal_bounds (v : AudioVisualizer) (db : R) :
  min_db (config v) = max_db (config v) ->
  map_brightness v db = Raise ZeroDivisionError.
Proof.
  intros Heq. unfold map_brightness.
  replace (max_db (config v) - min_db (config v)) with 0 by lra.
  rewrite py_div_zero. reflexivity.
Qed.

(** With [max_db < min_db] the mapper returns 0 for every input. *)
Lemma map_brightness_inverted_bounds (v : AudioVisualizer) (db : R) :
  max_db (config v) < min_db (config v) ->
  map_brightness v db = Ok 0%Z.
Proof.
  intros Hlt. unfold map_brightness.
  rewrite py_div_ok by lra.
  rewrite py_max_Rmax, py_min_Rmin.
  rewrite Rmax_left by (apply Rle_trans with (max_db (config v)); [ apply Rmin_l | lra ]).
  cbn [bind].
  replace ((min_db (config v) - min_db (config v)) /
           (max_db (config v) - min_db (config v)) * 255) with (IZR 0) by (field; lra).
  rewrite py_int_IZR. reflexivity.
Qed.

(** A configuration with floor = ceiling = 40 is constructed without any
    error, and the division by zero is reached when a frame is rendered. *)
Lemma equal_bounds_accepted_at_construction :
  __init__ 300 18 800000 10 false 255 0 528384 44100 512 40 40 200
    = Ok (constructed (mkConfig 300 18 800000 10 false 255 0 528384 44100 512 40 40 200)) /\
  map_brightness
    (constructed (mkConfig 300 18 800000 10 false 255 0 528384 44100 512 40 40 200)) 65
    = Raise ZeroDivisionError.
Proof.
  split.
  - reflexivity.
  - apply map_brightness_equal_bounds. reflexivity.
Qed.

(** C2, as the code has it.  Construction never fails and stores floor and
    ceiling as given, whatever their order; when they are equal the division
    by zero of the brightness mapper is reached at render time, for every
    loudness, and when the floor is above the ceiling every loudness maps to
    brightness 0. *)
Theorem init_accepts_any_bounds
    (led_count : nat) (led_pin led_freq_hz led_dma : Z) (led_invert : bool)
    (led_brightness led_channel led_strip sample_rate chunk_size : Z)
    (floor ceiling sensitivity : R) :
  exists v : AudioVisualizer,
    __init__ led_count led_pin led_freq_hz led_dma led_invert led_brightness
             led_channel led_strip sample_rate chunk_size floor ceiling sensitivity = Ok v /\
    min_db (config v) = floor /\
    max_db (config v) = ceiling /\
    (floor = ceiling -> forall db, map_brightness v db = Raise ZeroDivisionError) /\
    (ceiling < floor -> forall db, map_brightness v db = Ok 0%Z).
Proof.
  eexists. split; [ reflexivity | ].
  split; [ reflexivity | ]. split; [ reflexivity | ].
  split.
  - intros Heq db. apply map_brightness_equal_bounds. exact Heq.
  - intros Hlt db. apply map_brightness_inverted_bounds. exact Hlt.
Qed.

End Brightness.

(** * The gradient colour policy: [calculate_color] *)

Section Gradient.

Import PyNum.
Import Light.
Open Scope R_scope.

(** The position inside a band, scaled to 0..255. *)
Lemma band_ramp_bounds (x t : R) :
  0 < t -> 0 <= x -> x <= t -> 0 <= 255 * x / t <= 255.
Proof.
  intros Ht Hx Hxt.
  assert (Hinv : 0 < / t) by (apply Rinv_0_lt_compat; exact Ht).
  assert (Hone : t * / t = 1) by (apply Rinv_r; lra).
  unfold Rdiv. split.
  - apply Rmult_le_pos; lra.
  - replace 255 with (255 * (t * / t)) at 2 by (rewrite Hone; lra).
    rewrite Rmult_assoc. apply Rmult_le_compat_l; [ lra | ].
    apply Rmult_le_compat_r; lra.
Qed.

Lemma band_ramp_channel (x t : R) :
  0 < t -> 0 <= x -> x <= t ->
  channel (py_int (255 * x / t)) /\ channel (255 - py_int (255 * x / t)).
Proof.
  intros Ht Hx Hxt.
  destruct (band_ramp_bounds Ht Hx Hxt) as [Hlo Hhi].
  pose proof (py_int_nonneg Hlo) as H0.
  pose proof (py_int_upper 255 Hlo Hhi) as H255.
  unfold channel. lia.
Qed.

(** The three bands of [calculate_color], each as one expression. *)
Lemma calculate_color_band1 (cfg : Config) (a : R) :
  0 < SENSITIVITY cfg -> a < SENSITIVITY cfg / 3 ->
  calculate_color cfg a =
  Ok (0%Z, py_int (255 * a / (SENSITIVITY cfg / 3)),
      (255 - py_int (255 * a / (SENSITIVITY cfg / 3)))%Z).
Proof.
  intros HS Ha. unfold calculate_color.
  destruct (Rlt_dec a (SENSITIVITY cfg / 3)) as [_ | Hn]; [ | contradiction ].
  rewrite py_div_ok by lra. reflexivity.
Qed.

Lemma calculate_color_band2 (cfg : Config) (a : R) :
  0 < SENSITIVITY cfg -> SENSITIVITY cfg / 3 <= a -> a < 2 * SENSITIVITY cfg / 3 ->
  calculate_color cfg a =
  Ok (py_int (255 * (a - SENSITIVITY cfg / 3) / (SENSITIVITY cfg / 3)), 255%Z, 0%Z).
Proof.
  intros HS Hlo Hhi. unfold calculate_color.
  destruct (Rlt_dec a (SENSITIVITY cfg / 3)) as [Hn | _]; [ lra | ].
  destruct (Rlt_dec a (2 * SENSITIVITY cfg / 3)) as [_ | Hn]; [ | contradiction ].
  rewrite py_div_ok by lra. reflexivity.
Qed.

Lemma calculate_color_band3 (cfg : Config) (a : R) :
  0 < SENSITIVITY cfg -> 2 * SENSITIVITY cfg / 3 <= a ->
  calculate_color cfg a =
  Ok (255%Z,
      (255 - py_int (255 * (a - 2 * SENSITIVITY cfg / 3) / (SENSITIVITY cfg / 3)))%Z,
      0%Z).
Proof.
  intros HS Hlo. unfold calculate_color.
  destruct (Rlt_dec a (SENSITIVITY cfg / 3)) as [Hn | _]; [ lra | ].
  destruct (Rlt_dec a (2 * SENSITIVITY cfg / 3)) as [Hn | _]; [ lra | ].
  rewrite py_div_ok by lra. reflexivity.
Qed.

(** C4.  The band edges.  In exact arithmetic, for every positive
    sensitivity, the colour is (0,0,255) at amplitude 0, (0,255,0) at
    sensitivity/3, (255,255,0) at 2*sensitivity/3 and (255,0,0) at
    sensitivity.  In double precision with the shipped sensitivity 100 the
    first three are the same, and at amplitude 100 the quotient rounds to
    254.99999999999991, which [int()] truncates to 254: the colour is
    (255,1,0), one unit of green away from (255,0,0). *)
Theorem calculate_color_band_edges :
  (forall cfg : Config, 0 < SENSITIVITY cfg ->
     calculate_color cfg 0 = Ok (0, 0, 255)%Z /\
     calculate_color cfg (SENSITIVITY cfg / 3) = Ok (0, 255, 0)%Z /\
     calculate_color cfg (2 * SENSITIVITY cfg / 3) = Ok (255, 255, 0)%Z /\
     calculate_color cfg (SENSITIVITY cfg) = Ok (255, 0, 0)%Z) /\
  (LightB64.calculate_color_b64 LightB64.SENSITIVITY LightB64.edge0 = Ok (0, 0, 255)%Z /\
   LightB64.calculate_color_b64 LightB64.SENSITIVITY LightB64.edge1 = Ok (0, 255, 0)%Z /\
   LightB64.calculate_color_b64 LightB64.SENSITIVITY LightB64.edge2 = Ok (255, 255, 0)%Z /\
   LightB64.calculate_color_b64 LightB64.SENSITIVITY LightB64.edge3 = Ok (255, 1, 0)%Z /\
   within_one (255, 1, 0)%Z (255, 0, 0)%Z).
Proof.
  split.
  - intros cfg HS. repeat split.
    + rewrite calculate_color_band1 by lra.
      replace (255 * 0 / (SENSITIVITY cfg / 3)) with (IZR 0) by (field; lra).
      rewrite py_int_IZR. reflexivity.
    + rewrite calculate_color_band2 by lra.
      replace (255 * (SENSITIVITY cfg / 3 - SENSITIVITY cfg / 3) / (SENSITIVITY cfg / 3))
        with (IZR 0) by (field; lra).
      rewrite py_int_IZR. reflexivity.
    + rewrite calculate_color_band3 by lra.
      replace (255 * (2 * SENSITIVITY cfg / 3 - 2 * SENSITIVITY cfg / 3)
               / (SENSITIVITY cfg / 3))
        with (IZR 0) by (field; lra).
      rewrite py_int_IZR. reflexivity.
    + rewrite calculate_color_band3 by lra.
      replace (255 * (SENSITIVITY cfg - 2 * SENSITIVITY cfg / 3) / (SENSITIVITY cfg / 3))
        with (IZR 255) by (field; lra).
      rewrite py_int_IZR. reflexivity.
  - repeat split; try (vm_compute; reflexivity); vm_compute; discriminate.
Qed.

Lemma calculate_color_band_edges_witness :
  calculate_color shipped 0 = Ok (0, 0, 255)%Z /\
  calculate_color shipped (100 / 3) = Ok (0, 255, 0)%Z /\
  calculate_color shipped (2 * 100 / 3) = Ok (255, 255, 0)%Z /\
  calculate_color shipped 100 = Ok (255, 0, 0)%Z.
Proof.
  apply (proj1 calculate_color_band_edges shipped). simpl. lra.
Defined.

(** An amplitude of twice the shipped sensitivity gives a green channel of
    -765 (of -764 in double precision, where the quotient rounds just below
    1020). *)
Lemma calculate_color_out_of_range :
  0 <= 200 /\
  calculate_color shipped 200 = Ok (255, -765, 0)%Z /\
  ~ channels_in_range (255, -765, 0)%Z /\
  LightB64.calculate_color_b64 LightB64.SENSITIVITY LightB64.beyond = Ok (255, -764, 0)%Z /\
  ~ channels_in_range (255, -764, 0)%Z.
Proof.
  split; [ lra | ]. split; [ | split; [ | split ] ].
  - rewrite calculate_color_band3 by (simpl; lra).
    replace (255 * (200 - 2 * SENSITIVITY shipped / 3) / (SENSITIVITY shipped / 3))
      with (IZR 1020) by (simpl; field).
    rewrite py_int_IZR. reflexivity.
  - unfold channels_in_range, channel. lia.
  - vm_compute. reflexivity.
  - unfold channels_in_range, channel. lia.
Qed.

(** C5, as the code has it.  For a positive sensitivity and every amplitude
    from 0 up to the sensitivity, the function returns a colour whose three
    channels lie in 0..255. *)
Theorem calculate_color_in_range (cfg : Config) (amplitude : R) :
  0 < SENSITIVITY cfg -> 0 <= amplitude -> amplitude <= SENSITIVITY cfg ->
  exists c : Z * Z * Z,
    calculate_color cfg amplitude = Ok c /\ channels_in_range c.
Proof.
  intros HS Hlo Hhi.
  set (t := SENSITIVITY cfg / 3).
  assert (Ht : 0 < t) by (unfold t; lra).
  assert (Hconst : channel 0 /\ channel 255) by (unfold channel; lia).
  destruct Hconst as [H0 H255].
  destruct (Rlt_dec amplitude t) as [H1 | H1].
  - rewrite calculate_color_band1 by assumption. fold t.
    eexists. split; [ reflexivity | ].
    destruct (@band_ramp_channel amplitude t) as [Hg Hb]; try lra.
    simpl. auto.
  - destruct (Rlt_dec amplitude (2 * SENSITIVITY cfg / 3)) as [H2 | H2].
    + rewrite calculate_color_band2 by (try assumption; fold t; lra). fold t.
      eexists. split; [ reflexivity | ].
      destruct (@band_ramp_channel (amplitude - t) t) as [Hr _]; try (unfold t in *; lra).
      simpl. auto.
    + rewrite calculate_color_band3 by (try assumption; lra). fold t.
      eexists. split; [ reflexivity | ].
      destruct (@band_ramp_channel (amplitude - 2 * SENSITIVITY cfg / 3) t) as [_ Hg];
        try (unfold t in *; lra).
      simpl. auto.
Qed.

Lemma calculate_color_in_range_witness :
  exists c : Z * Z * Z, calculate_color shipped 50 = Ok c /\ channels_in_range c.
Proof.
  apply (@calculate_color_in_range shipped 50); simpl; lra.
Defined.

End Gradient.

(** * The strip: what the loops send to the driver *)

Section Strip.

Lemma fill_from_calls (s : NeoPixel) (lo n : nat) (color : HwColor) :
  calls (fill_from s lo n color) = calls s ++ fill_calls lo n color /\
  numPixels (fill_from s lo n color) = numPixels s.
Proof.
  revert s lo. induction n as [| n IH]; intros s lo.
  - simpl. rewrite app_nil_r. split; reflexivity.
  - simpl. destruct (IH (strip_call s (SetPixelColor lo color)) (S lo)) as [Hc Hn].
    rewrite Hc, Hn. simpl. rewrite <- app_assoc. split; reflexivity.
Qed.

Lemma blank_is_blank_calls (s : NeoPixel) (count : nat) :
  calls (blank s count) = calls s ++ blank_calls count /\
  numPixels (blank s count) = numPixels s.
Proof.
  unfold blank, blank_calls. simpl.
  destruct (fill_from_calls s 0 count (Color 0 0 0)) as [Hc Hn].
  rewrite Hc, Hn, app_assoc. split; reflexivity.
Qed.

Lemma set_leds_ws281x_calls (s : NeoPixel) (i : nat) (led_data : list (Z * Z * Z)) :
  calls (Light.set_leds_ws281x s i led_data) = calls s ++ grb_calls i led_data /\
  numPixels (Light.set_leds_ws281x s i led_data) = numPixels s.
Proof.
  revert s i. induction led_data as [| [[r g] b] rest IH]; intros s i.
  - simpl. rewrite app_nil_r. split; reflexivity.
  - simpl. destruct (IH (strip_call s (SetPixelColor i (Color g r b))) (S i)) as [Hc Hn].
    rewrite Hc, Hn. simpl. rewrite <- app_assoc. split; reflexivity.
Qed.

Lemma grb_calls_length (i : nat) (led_data : list (Z * Z * Z)) :
  length (grb_calls i led_data) = length led_data.
Proof.
  revert i. induction led_data as [| c rest IH]; intros i; simpl.
  - reflexivity.
  - rewrite IH. reflexivity.
Qed.

Lemma grb_calls_nth (i k : nat) (led_data : list (Z * Z * Z)) (c : Z * Z * Z) :
  nth_error led_data k = Some c ->
  nth_error (grb_calls i led_data) k = Some (grb_call (i + k) c).
Proof.
  revert i k. induction led_data as [| d rest IH]; intros i k Hk.
  - destruct k; discriminate Hk.
  - destruct k as [| k]; simpl in *.
    + injection Hk as ->. rewrite Nat.add_0_r. reflexivity.
    + rewrite (IH (S i) k Hk). f_equal. f_equal. lia.
Qed.

(** C10.  In WS281x mode, with the strip created, [set_leds] succeeds for
    every list of colours; it adds one call per colour and a final [show()]
    to the calls the strip had received; the call for the colour (r, g, b) at
    position i is [setPixelColor(i, Color(g, r, b))]: red and green are
    exchanged before the driver sees them. *)
Theorem set_leds_sends_grb (cfg : Light.Config) (st : Light.Script) (s : NeoPixel)
    (led_data : list (Z * Z * Z)) :
  Light.LED_TYPE cfg = Light.WS281x ->
  Light.led_strip st = Some s ->
  exists s' : NeoPixel,
    Light.set_leds cfg st led_data = Ok (Light.with_strip st s') /\
    firstn (length (calls s)) (calls s') = calls s /\
    length (calls s') = (length (calls s) + length led_data + 1)%nat /\
    (forall i r g b,
       nth_error led_data i = Some (r, g, b) ->
       nth_error (calls s') (length (calls s) + i) = Some (SetPixelColor i (Color g r b))) /\
    nth_error (calls s') (length (calls s) + length led_data) = Some Show.
Proof.
  intros Htype Hstrip. unfold Light.set_leds. rewrite Htype, Hstrip.
  eexists. split; [ reflexivity | ].
  destruct (set_leds_ws281x_calls s 0 led_data) as [Hc _].
  simpl calls. rewrite Hc.
  repeat split.
  - rewrite <- app_assoc. rewrite firstn_app, firstn_all, Nat.sub_diag. simpl.
    apply app_nil_r.
  - rewrite !length_app, grb_calls_length. reflexivity.
  - intros i r g b Hi.
    rewrite <- app_assoc, nth_error_app2 by lia.
    replace (length (calls s) + i - length (calls s))%nat with i by lia.
    rewrite nth_error_app1
      by (rewrite grb_calls_length; apply nth_error_Some; rewrite Hi; discriminate).
    rewrite (grb_calls_nth 0 i led_data Hi). reflexivity.
  - rewrite <- app_assoc, nth_error_app2 by lia.
    replace (length (calls s) + length led_data - length (calls s))%nat
      with (length led_data) by lia.
    rewrite nth_error_app2 by (rewrite grb_calls_length; lia).
    rewrite grb_calls_length, Nat.sub_diag. reflexivity.
Qed.

Lemma set_leds_sends_grb_witness :
  exists s' : NeoPixel,
    Light.set_leds Light.shipped script_after_begin [(1, 2, 3)%Z; (255, 0, 7)%Z]
      = Ok (Light.with_strip script_after_begin s') /\
    firstn 1 (calls s') = [Begin] /\
    length (calls s') = 4%nat /\
    (forall i r g b,
       nth_error [(1, 2, 3)%Z; (255, 0, 7)%Z] i = Some (r, g, b) ->
       nth_error (calls s') (1 + i) = Some (SetPixelColor i (Color g r b))) /\
    nth_error (calls s') 3 = Some Show.
Proof.
  apply (@set_leds_sends_grb Light.shipped script_after_begin
           (strip_call (Adafruit_NeoPixel 30) Begin) [(1, 2, 3)%Z; (255, 0, 7)%Z]);
    reflexivity.
Defined.

End Strip.

(** * The pipeline of main.py: hand-off, error status, shutdown *)

Section Pipeline.

Import PyNum.
Import Main.
Open Scope R_scope.

Lemma get_decibel_level_config (v v' : AudioVisualizer) (chunk : list R) :
  config v = config v' -> get_decibel_level v chunk = get_decibel_level v' chunk.
Proof. intros H. unfold get_decibel_level. rewrite H. reflexivity. Qed.

Lemma map_brightness_config (v v' : AudioVisualizer) (db : R) :
  config v = config v' -> map_brightness v db = map_brightness v' db.
Proof. intros H. unfold map_brightness. rewrite H. reflexivity. Qed.

Lemma frame_calls_config (v v' : AudioVisualizer) (n : nat) (chunk : list R) :
  config v = config v' -> frame_calls v n chunk = frame_calls v' n chunk.
Proof.
  intros H. unfold frame_calls. destruct chunk as [| x xs]; [ reflexivity | ].
  rewrite (get_decibel_level_config v v' _ H).
  destruct (get_decibel_level v' (x :: xs)) as [db | e]; [ | reflexivity ].
  cbn [bind]. rewrite (map_brightness_config v v' _ H). reflexivity.
Qed.

(** [render] adds exactly the frame of the chunk in [audio_data] to the
    strip, and touches nothing else. *)
Lemma render_frame (v : AudioVisualizer) (s : NeoPixel) :
  strip v = Some s ->
  render v =
  (frame <- frame_calls v (numPixels s) (audio_data v) ;;
   Ok (set_strip v (Some (mkNeoPixel (numPixels s) (calls s ++ frame))))).
Proof.
  intros Hs. unfold render, frame_calls.
  destruct (audio_data v) as [| x xs] eqn:Hd.
  - simpl. rewrite app_nil_r. f_equal.
    destruct v as [c st ad ev rn sm]. simpl in *. subst st.
    destruct s; reflexivity.
  - cbn [length Nat.ltb Nat.leb].
    destruct (get_decibel_level v (x :: xs)) as [db | e]; [ | reflexivity ].
    cbn [bind].
    destruct (map_brightness v db) as [b | e]; [ | reflexivity ].
    cbn [bind]. rewrite Hs. do 3 f_equal.
    destruct (fill_from_calls s 0 (numPixels s) (Color 0 b 0)) as [Hc Hn].
    unfold strip_call. rewrite Hc, Hn, app_assoc. reflexivity.
Qed.

(** One wake-up of the LED thread, from blocked in [wait()] with the event
    set to blocked in [wait()] again (or dead from an exception in the body). *)
Lemma wake_cycle (p : Process) (s : NeoPixel) (fuel : nat) :
  led_thread p = AtWait ->
  audio_event (self p) = true ->
  running (self p) = true ->
  strip (self p) = Some s ->
  (5 <= fuel)%nat ->
  update_leds fuel p =
  match frame_calls (self p) (numPixels s) (audio_data (self p)) with
  | Ok frame =>
      goto (with_self p
              (set_strip (set_audio_event (self p) false)
                 (Some (mkNeoPixel (numPixels s) (calls s ++ frame)))))
           AtWait
  | Raise e => goto (with_self p (set_audio_event (self p) false)) (Died e)
  end.
Proof.
  intros Hpc Hev Hrun Hs Hfuel.
  destruct p as [v out pc]. simpl in Hpc, Hev, Hrun, Hs. subst pc.
  do 5 (destruct fuel as [| fuel]; [ lia | ]).
  assert (Hrender := @render_frame (set_audio_event v false) s Hs).
  rewrite (@frame_calls_config (set_audio_event v false) v) in Hrender by reflexivity.
  change (audio_data (set_audio_event v false)) with (audio_data v) in Hrender.
  cbn [self].
  destruct (frame_calls v (numPixels s) (audio_data v)) as [frame | e];
    cbn [bind] in Hrender.
  - cbn -[render]. rewrite Hev. cbn -[render]. rewrite Hrun. cbn -[render].
    rewrite Hrender. cbn -[render]. rewrite Hrun. cbn -[render].
    destruct fuel; reflexivity.
  - cbn -[render]. rewrite Hev. cbn -[render]. rewrite Hrun. cbn -[render].
    rewrite Hrender. cbn -[render].
    destruct fuel; reflexivity.
Qed.

(** C7.  The LED thread is blocked in [wait()]; the audio thread delivers
    chunk [C1] and then chunk [C2], both with an empty status, before the LED
    thread takes a step.  The slot then holds [C2].  Left to run, the LED
    thread renders one frame, the frame of [C2] (a value that does not depend
    on [C1]), and blocks in [wait()] again with the event cleared; if the
    body raises for [C2] it renders nothing at all.  No frame of [C1] is ever
    sent to the strip. *)
Theorem coalescing_renders_latest_only (p : Process) (s : NeoPixel)
    (C1 C2 : list R) (frames1 frames2 : Z) (fuel : nat) :
  led_thread p = AtWait ->
  running (self p) = true ->
  strip (self p) = Some s ->
  (5 <= fuel)%nat ->
  let delivered := exec p [Deliver C1 frames1 0%N; Deliver C2 frames2 0%N] in
  let final := update_leds fuel delivered in
  audio_data (self delivered) = C2 /\
  audio_event (self delivered) = true /\
  match frame_calls (self p) (numPixels s) C2 with
  | Ok frame =>
      strip_calls final = strip_calls p ++ frame /\
      led_thread final = AtWait /\
      audio_event (self final) = false /\
      update_leds_step final = None
  | Raise e =>
      strip_calls final = strip_calls p /\
      led_thread final = Died e
  end.
Proof.
  intros Hpc Hrun Hs Hfuel delivered final.
  assert (Hd : delivered =
               with_self p (set_audio_event (set_audio_data (self p) C2) true)).
  { destruct p as [v out pc]. reflexivity. }
  split; [ rewrite Hd; reflexivity | ].
  split; [ rewrite Hd; reflexivity | ].
  subst final. rewrite Hd.
  rewrite (@wake_cycle _ s fuel) by (try assumption; reflexivity).
  cbn [self with_self audio_data set_audio_event set_audio_data].
  rewrite (@frame_calls_config
             (set_audio_event (set_audio_data (self p) C2) true) (self p))
    by reflexivity.
  unfold strip_calls.
  destruct (frame_calls (self p) (numPixels s) C2) as [frame | e].
  - cbn. rewrite Hs. repeat split; reflexivity.
  - cbn. rewrite Hs. split; reflexivity.
Qed.

Lemma coalescing_renders_latest_only_witness :
  let delivered := exec listening [Deliver [1 / 2] 1%Z 0%N; Deliver [1 / 4] 1%Z 0%N] in
  let final := update_leds 8%nat delivered in
  audio_data (self delivered) = [1 / 4] /\
  audio_event (self delivered) = true /\
  match frame_calls (self listening) 300%nat [1 / 4] with
  | Ok frame =>
      strip_calls final = strip_calls listening ++ frame /\
      led_thread final = AtWait /\
      audio_event (self final) = false /\
      update_leds_step final = None
  | Raise e =>
      strip_calls final = strip_calls listening /\
      led_thread final = Died e
  end.
Proof.
  apply (@coalescing_renders_latest_only listening
           (strip_call (Adafruit_NeoPixel 300) Begin) [1 / 2] [1 / 4] 1%Z 1%Z 8%nat);
    try reflexivity. lia.
Defined.

(** C8.  A delivery with a non-empty status only prints the error line.  In
    main.py the object (chunk slot, event, running flag, strip, stream) and
    the LED thread are left as they were, the callback returns normally, and
    the next good chunk is accepted as if the bad one had never come; in
    light.py the callback returns normally and no colour is computed or sent
    to the strip. *)
Theorem error_status_drops_chunk (status : CallbackFlags) :
  flags_bool status = true ->
  (forall (p : Process) (indata : list R) (frames : Z),
     let p' := audio_callback p indata frames tt status in
     self p' = self p /\
     led_thread p' = led_thread p /\
     stdout p' = stdout p ++ [ErrorInAudioStream status] /\
     forall (next : list R) (frames' : Z),
       self (audio_callback p' next frames' tt 0%N) =
       self (audio_callback p next frames' tt 0%N)) /\
  (forall (cfg : Light.Config) (st : Light.Script) (indata : list R) (frames : Z),
     Light.audio_callback cfg st indata frames tt status =
     Ok (Light.print st (ErrorInAudioStream status)) /\
     Light.led_strip (Light.print st (ErrorInAudioStream status)) = Light.led_strip st /\
     Light.blinkt (Light.print st (ErrorInAudioStream status)) = Light.blinkt st).
Proof.
  intros Hstatus. split.
  - intros p indata frames p'. subst p'.
    unfold audio_callback. rewrite Hstatus.
    repeat split; reflexivity.
  - intros cfg st indata frames.
    unfold Light.audio_callback. rewrite Hstatus.
    repeat split; reflexivity.
Qed.

(** Status 2 is [paInputOverflow]. *)
Lemma error_status_drops_chunk_witness :
  (forall (p : Process) (indata : list R) (frames : Z),
     let p' := audio_callback p indata frames tt 2%N in
     self p' = self p /\
     led_thread p' = led_thread p /\
     stdout p' = stdout p ++ [ErrorInAudioStream 2%N] /\
     forall (next : list R) (frames' : Z),
       self (audio_callback p' next frames' tt 0%N) =
       self (audio_callback p next frames' tt 0%N)) /\
  (forall (cfg : Light.Config) (st : Light.Script) (indata : list R) (frames : Z),
     Light.audio_callback cfg st indata frames tt 2%N =
     Ok (Light.print st (ErrorInAudioStream 2%N)) /\
     Light.led_strip (Light.print st (ErrorInAudioStream 2%N)) = Light.led_strip st /\
     Light.blinkt (Light.print st (ErrorInAudioStream 2%N)) = Light.blinkt st).
Proof.
  apply (@error_status_drops_chunk 2%N). reflexivity.
Defined.

End Pipeline.

(** * Shutdown *)

Section Shutdown.

Import PyNum.
Import Main.
Open Scope R_scope.

Lemma audio_callback_strip (p : Process) (indata : list R) (frames : Z)
    (status : CallbackFlags) :
  strip (self (audio_callback p indata frames tt status)) = strip (self p).
Proof.
  unfold audio_callback. destruct (flags_bool status); reflexivity.
Qed.

Lemma update_leds_step_ready (n : nat) (p p' : Process) :
  strip_ready n p -> update_leds_step p = Some p' -> strip_ready n p'.
Proof.
  intros (s & Hs & Hn) Hstep. unfold update_leds_step in Hstep.
  destruct (led_thread p); try discriminate Hstep.
  - injection Hstep as <-. exists s. split; assumption.
  - destruct (audio_event (self p)); [ | discriminate Hstep ].
    injection Hstep as <-. exists s. split; assumption.
  - injection Hstep as <-. exists s. split; assumption.
  - injection Hstep as <-. exists s. split; assumption.
  - rewrite (@render_frame (self p) s Hs) in Hstep.
    destruct (frame_calls (self p) (numPixels s) (audio_data (self p))) as [frame | e];
      cbn [bind] in Hstep; injection Hstep as <-.
    + eexists. split; [ reflexivity | exact Hn ].
    + exists s. split; assumption.
Qed.

Lemma exec_ready (n : nat) (schedule : list Event) (p : Process) :
  strip_ready n p -> strip_ready n (exec p schedule).
Proof.
  unfold exec. revert p. induction schedule as [| ev rest IH]; intros p Hp.
  - exact Hp.
  - simpl. apply IH. destruct ev as [indata frames status | ].
    + destruct Hp as (s & Hs & Hn). exists s.
      simpl. rewrite audio_callback_strip. split; assumption.
    + simpl. destruct (update_leds_step p) as [p' |] eqn:Hstep.
      * exact (update_leds_step_ready Hp Hstep).
      * exact Hp.
Qed.

(** light.py: whatever the callbacks did and however the [try] body ended,
    the [finally] clause blanks the strip last. *)
Lemma light_main_always_blanks (cfg : Light.Config) (st : Light.Script)
    (body : Light.Script -> Light.Script) (raised : Raised) (s : NeoPixel) :
  Light.LED_TYPE cfg = Light.WS281x ->
  Light.led_strip (body (Light.print (Light.main_init cfg st) ListeningForAudio)) = Some s ->
  exists (st' : Light.Script) (s' : NeoPixel),
    Light.main cfg st body raised = Ok st' /\
    Light.led_strip st' = Some s' /\
    calls s' = calls s ++ blank_calls (Light.LED_COUNT cfg).
Proof.
  intros Htype Hs. unfold Light.main, Light.main_finally. rewrite Htype.
  assert (He : Light.led_strip
                 (Light.main_except
                    (body (Light.print (Light.main_init cfg st) ListeningForAudio)) raised)
               = Some s).
  { destruct raised; exact Hs. }
  rewrite He. do 2 eexists. split; [ reflexivity | ].
  split; [ reflexivity | ].
  apply blank_is_blank_calls.
Qed.

(** main.py, Ctrl+C: the handler blanks the strip as its last strip action,
    wherever the [try] body was and whatever had happened before. *)
Lemma run_interrupt_blanks (v : AudioVisualizer) (stage : TryStage)
    (schedule : list Event) :
  exists (p' : Process) (before : list StripCall),
    run (start v) stage schedule KeyboardInterrupt = Ok p' /\
    running (self p') = false /\
    strip_calls p' = before ++ blank_calls (led_count (config v)).
Proof.
  unfold run.
  set (p2 := match stage with
             | AtSleep => exec (run_try (run_setup (start v)) stage) schedule
             | _ => run_try (run_setup (start v)) stage
             end).
  assert (Hready : strip_ready (led_count (config v)) p2).
  { assert (H0 : strip_ready (led_count (config v)) (run_try (run_setup (start v)) stage)).
    { eexists. destruct stage; split; reflexivity. }
    subst p2. destruct stage; try exact H0. apply exec_ready. exact H0. }
  destruct Hready as (s & Hs & Hn).
  clearbody p2. destruct p2 as [[c st ad ev rn sm] out pc].
  simpl in Hs. subst st.
  unfold run_except. cbn -[blank].
  destruct sm as [sm |];
    (do 2 eexists; split; [ reflexivity | ]; split; [ reflexivity | ];
     unfold strip_calls; cbn -[blank]; rewrite <- Hn; apply blank_is_blank_calls).
Qed.

(** main.py, any other exception while the stream is being set up: [run]
    prints the error and returns; the strip gets no call after [begin()]. *)
Lemma run_exception_no_strip_call (v : AudioVisualizer) (stage : TryStage) (e : PyError) :
  stage <> AtSleep ->
  exists p' : Process,
    run (start v) stage [] (PyException e) = Ok p' /\
    strip_calls p' = [Begin] /\
    stdout p' = [ErrorLine e] /\
    running (self p') = running v.
Proof.
  intros Hstage. eexists. split; [ reflexivity | ].
  destruct stage; try (contradiction Hstage; reflexivity);
    repeat split; reflexivity.
Qed.

(** C9, at the input where the code departs from it: the shipped
    visualizer, no audio input device, so that [sd.InputStream(...)] raises
    PortAudioError inside [run].  [run] returns normally after printing the
    error; the only call the strip ever received is [begin()]: no pixel was
    set to black and nothing was committed. *)
Theorem run_exception_skips_blanking :
  exists p' : Process,
    run (start shipped) AtInputStream [] (PyException PortAudioError) = Ok p' /\
    strip_calls p' = [Begin] /\
    ~ In Show (strip_calls p') /\
    stdout p' = [ErrorLine PortAudioError].
Proof.
  eexists. split; [ reflexivity | ].
  split; [ reflexivity | ].
  split; [ | reflexivity ].
  cbn. intros [H | []]. discriminate H.
Qed.

(** main.py, Ctrl+C while the LED thread is past its test of
    [self.running]: the handler blanks the strip and finishes, and the
    thread, which nothing waits for, then renders its frame on top of the
    blanked strip. *)
Lemma late_frame_state :
  exec (run_try (run_setup (start shipped)) AtSleep) late_frame_schedule =
  {| self := {| config := shipped_config;
                strip := Some (strip_call (Adafruit_NeoPixel 300) Begin);
                audio_data := [1];
                audio_event := false;
                running := true;
                stream := Some StreamStarted |};
     stdout := [ListeningForAudio];
     led_thread := AtRender |}.
Proof. reflexivity. Qed.

Lemma led_thread_renders_after_blanking :
  exists (p' : Process) (brightness : Z),
    run (start shipped) AtSleep late_frame_schedule KeyboardInterrupt = Ok p' /\
    running (self p') = false /\
    strip_calls p' = [Begin] ++ blank_calls 300 /\
    strip_calls (exec p' [LedStep]) =
      ([Begin] ++ blank_calls 300) ++ fill_calls 0 300 (Color 0 brightness 0) ++ [Show].
Proof.
  pose proof (get_decibel_level_eq shipped [1]) as Hdb.
  set (db := if np_any [1] then _ else _) in Hdb.
  assert (Hmb : exists b, map_brightness shipped db = Ok b).
  { rewrite map_brightness_eq by (simpl; lra). eexists. reflexivity. }
  destruct Hmb as [b Hmb].
  set (s := strip_call (Adafruit_NeoPixel 300) Begin).
  destruct (blank_is_blank_calls s 300) as [Hc Hn].
  unfold run. cbv iota. rewrite late_frame_state. fold s.
  unfold run_except. cbn -[blank s].
  eexists. exists b. split; [ reflexivity | ].
  split; [ reflexivity | ].
  split.
  - unfold strip_calls. cbn -[blank s]. exact Hc.
  - unfold exec, strip_calls. cbn -[blank s render].
    rewrite (@render_frame _ (blank s 300)) by reflexivity.
    cbn -[blank s frame_calls].
    unfold frame_calls.
    rewrite (@get_decibel_level_config _ shipped [1]) by reflexivity.
    rewrite Hdb. cbn [bind].
    rewrite (@map_brightness_config _ shipped db) by reflexivity.
    rewrite Hmb. cbn [bind].
    cbn -[blank s fill_calls].
    rewrite Hc, Hn. reflexivity.
Qed.

End Shutdown.

(** * More on the loudness extractor and the brightness mapper *)

Section LoudnessAndBrightness.

Import PyNum.
Import Main.
Open Scope R_scope.

Lemma log10_mult (x y : R) : 0 < x -> 0 < y -> log10 (x * y) = log10 x + log10 y.
Proof.
  intros Hx Hy. unfold log10. rewrite ln_mult by assumption.
  pose proof ln_10_pos. field. lra.
Qed.

Lemma log10_10 : log10 10 = 1.
Proof. unfold log10. pose proof ln_10_pos. field. lra. Qed.

Lemma log10_100 : log10 100 = 2.
Proof.
  replace 100 with (10 * 10) by lra.
  rewrite log10_mult by lra. rewrite log10_10. lra.
Qed.

Lemma np_sum_square_scale (k : R) (xs : list R) :
  np_sum (np_square (map (Rmult k) xs)) = k * k * np_sum (np_square xs).
Proof.
  induction xs as [| x xs IH].
  - simpl. lra.
  - change (np_sum (np_square (map (Rmult k) (x :: xs))))
      with (k * x * (k * x) + np_sum (np_square (map (Rmult k) xs))).
    change (np_sum (np_square (x :: xs))) with (x * x + np_sum (np_square xs)).
    rewrite IH. lra.
Qed.

Lemma rms_scale (k : R) (xs : list R) : 0 <= k -> rms (map (Rmult k) xs) = k * rms xs.
Proof.
  intros Hk. unfold rms.
  rewrite np_sum_square_scale, length_map.
  replace (k * k * np_sum (np_square xs) / INR (length xs))
    with (k * k * (np_sum (np_square xs) / INR (length xs)))
    by (unfold Rdiv; ring).
  rewrite sqrt_mult.
  - rewrite sqrt_square by exact Hk. reflexivity.
  - apply Rmult_le_pos; exact Hk.
  - apply mean_square_nonneg.
Qed.

Lemma np_any_scale (k : R) (xs : list R) : k <> 0 -> np_any (map (Rmult k) xs) = np_any xs.
Proof.
  intros Hk. unfold np_any. induction xs as [| x xs IH]; simpl.
  - reflexivity.
  - rewrite IH.
    destruct (Req_dec_T (k * x) 0) as [H0 | H0], (Req_dec_T x 0) as [Hx | Hx];
      try reflexivity.
    + apply Rmult_integral in H0. destruct H0; contradiction.
    + contradiction H0. rewrite Hx. ring.
Qed.

(** A loudness above the floor is the decibel value itself, of a positive
    RMS. *)
Lemma above_floor_inv (v : AudioVisualizer) (chunk : list R) (l : R) :
  get_decibel_level v chunk = Ok l ->
  min_db (config v) < l ->
  np_any chunk = true /\ 0 < rms chunk /\ l = 20 * log10 (rms chunk / p_ref).
Proof.
  rewrite get_decibel_level_eq. intros Heq Hl.
  injection Heq as Heq.
  destruct (np_any chunk); [ | lra ].
  destruct (Rlt_dec 0 (rms chunk)) as [Hpos | _]; [ | lra ].
  rewrite py_max_Rmax in Heq.
  split; [ reflexivity | ]. split; [ exact Hpos | ].
  revert Heq. apply Rmax_case_strong; intros; lra.
Qed.

(** The rescaled clamped loudness lies between 0 and 255. *)
Lemma rescaled_bounds (lo hi db : R) :
  lo < hi -> 0 <= (Rmax lo (Rmin hi db) - lo) / (hi - lo) * 255 <= 255.
Proof.
  intros Hlt.
  set (c := Rmax lo (Rmin hi db)).
  assert (Hc : lo <= c <= hi).
  { unfold c. split.
    - apply Rmax_l.
    - apply Rmax_lub; [ lra | apply Rmin_l ]. }
  replace ((c - lo) / (hi - lo) * 255) with (255 * (c - lo) / (hi - lo))
    by (field; lra).
  apply band_ramp_bounds; lra.
Qed.

Lemma map_brightness_floor (v : AudioVisualizer) :
  min_db (config v) < max_db (config v) ->
  map_brightness v (min_db (config v)) = Ok 0%Z.
Proof.
  intros Hlt. rewrite map_brightness_eq by exact Hlt.
  rewrite Rmin_right by lra. rewrite Rmax_left by lra.
  replace ((min_db (config v) - min_db (config v))
           / (max_db (config v) - min_db (config v)) * 255)
    with (IZR 0) by (field; lra).
  rewrite py_int_IZR. reflexivity.
Qed.

Lemma map_brightness_saturated (v : AudioVisualizer) (db : R) :
  min_db (config v) < max_db (config v) ->
  max_db (config v) <= db ->
  map_brightness v db = Ok 255%Z.
Proof.
  intros Hlt Hdb. rewrite map_brightness_eq by exact Hlt.
  rewrite Rmin_left by lra. rewrite Rmax_right by lra.
  replace ((max_db (config v) - min_db (config v))
           / (max_db (config v) - min_db (config v)) * 255)
    with (IZR 255) by (field; lra).
  rewrite py_int_IZR. reflexivity.
Qed.

(** X1.  With [min_db < max_db], [map_brightness] never raises and its
    result is a brightness between 0 and 255, whatever the loudness. *)
Theorem map_brightness_in_range (v : AudioVisualizer) (db : R) :
  min_db (config v) < max_db (config v) ->
  exists b : Z, map_brightness v db = Ok b /\ (0 <= b <= 255)%Z.
Proof.
  intros Hlt. rewrite map_brightness_eq by exact Hlt.
  eexists. split; [ reflexivity | ].
  destruct (rescaled_bounds db Hlt) as [H0 H255].
  split.
  - apply py_int_nonneg. exact H0.
  - apply py_int_upper; assumption.
Qed.

Lemma map_brightness_in_range_witness :
  exists b : Z, map_brightness shipped 1000 = Ok b /\ (0 <= b <= 255)%Z.
Proof.
  apply (@map_brightness_in_range shipped 1000). simpl. lra.
Defined.

(** X2.  Whatever the chunk, [get_decibel_level] returns a loudness that is
    not below the floor [min_db]. *)
Theorem get_decibel_level_at_least_floor (v : AudioVisualizer) (chunk : list R) :
  exists l : R, get_decibel_level v chunk = Ok l /\ min_db (config v) <= l.
Proof.
  rewrite get_decibel_level_eq. eexists. split; [ reflexivity | ].
  destruct (np_any chunk); [ | lra ].
  destruct (Rlt_dec 0 (rms chunk)); [ | lra ].
  rewrite py_max_Rmax. apply Rmax_l.
Qed.

(** X3.  Gain in decibels.  When a chunk is louder than the floor, the same
    chunk with every sample multiplied by [k > 0] has the loudness shifted
    by [20 * log10 k], as long as that is still not below the floor; ten
    times the amplitude is 20 dB more. *)
Theorem get_decibel_level_gain (v : AudioVisualizer) (chunk : list R) (k l : R) :
  0 < k ->
  get_decibel_level v chunk = Ok l ->
  min_db (config v) < l ->
  min_db (config v) <= l + 20 * log10 k ->
  get_decibel_level v (map (Rmult k) chunk) = Ok (l + 20 * log10 k).
Proof.
  intros Hk Hl Habove Hstill.
  destruct (above_floor_inv v chunk Hl Habove) as (Hany & Hrms & ->).
  rewrite get_decibel_level_eq.
  rewrite np_any_scale by lra. rewrite Hany.
  rewrite rms_scale by lra.
  assert (Hpos : 0 < k * rms chunk) by (apply Rmult_lt_0_compat; assumption).
  destruct (Rlt_dec 0 (k * rms chunk)) as [_ | Hn]; [ | contradiction ].
  f_equal. rewrite py_max_Rmax.
  pose proof p_ref_pos as Hp.
  replace (k * rms chunk / p_ref) with (k * (rms chunk / p_ref)) by (field; lra).
  rewrite log10_mult
    by (try assumption; apply Rdiv_lt_0_compat; assumption).
  rewrite Rmax_right by lra. ring.
Qed.

Lemma shipped_level_of_one :
  get_decibel_level shipped [1] = Ok (20 * log10 (1 / p_ref)) /\
  40 < 20 * log10 (1 / p_ref).
Proof.
  assert (H : 2 < log10 (1 / p_ref)).
  { rewrite <- log10_100. apply log10_increasing; unfold p_ref; lra. }
  split; [ | lra ].
  change [1] with (repeat 1 1).
  rewrite get_decibel_level_constant by (try lia; lra).
  f_equal. apply Rmax_right. simpl. lra.
Qed.

Lemma get_decibel_level_gain_witness :
  get_decibel_level shipped (map (Rmult 10) [1])
  = Ok (20 * log10 (1 / p_ref) + 20 * log10 10).
Proof.
  destruct shipped_level_of_one as [Hl Habove].
  apply (@get_decibel_level_gain shipped [1] 10 (20 * log10 (1 / p_ref))).
  - lra.
  - exact Hl.
  - simpl. lra.
  - simpl. rewrite log10_10. lra.
Defined.

(** X4.  A block of [n > 0] samples of the same non-zero value [a] has the
    loudness of the amplitude [|a|]: neither the sign of the samples nor the
    length of the block matters. *)
Theorem get_decibel_level_constant_block (v : AudioVisualizer) (a : R) (n : nat) :
  (0 < n)%nat -> a <> 0 ->
  get_decibel_level v (repeat a n) =
  Ok (Rmax (min_db (config v)) (20 * log10 (Rabs a / p_ref))).
Proof.
  intros Hn Ha.
  rewrite get_decibel_level_eq.
  rewrite np_any_repeat by assumption.
  assert (Hrms : rms (repeat a n) = Rabs a).
  { unfold rms. rewrite np_sum_square_repeat, repeat_length.
    replace (INR n * (a * a) / INR n) with (Rsqr a)
      by (unfold Rsqr; field; apply not_0_INR; lia).
    apply sqrt_Rsqr_abs. }
  rewrite Hrms.
  pose proof (Rabs_pos_lt a Ha) as Hpos.
  destruct (Rlt_dec 0 (Rabs a)) as [_ | Hn0]; [ | contradiction ].
  rewrite py_max_Rmax. reflexivity.
Qed.

Lemma get_decibel_level_constant_block_witness :
  get_decibel_level shipped (repeat (- (1 / 2)) 512) =
  Ok (Rmax (min_db (config shipped)) (20 * log10 (Rabs (- (1 / 2)) / p_ref))).
Proof.
  apply (@get_decibel_level_constant_block shipped (- (1 / 2)) 512); [ lia | lra ].
Defined.

End LoudnessAndBrightness.

(** * More on the body of [update_leds] *)

Section Rendering.

Import PyNum.
Import Main.
Open Scope R_scope.

(** The body of the loop for a chunk whose brightness is known. *)
Lemma render_with_brightness (v : AudioVisualizer) (s : NeoPixel) (db : R) (b : Z) :
  strip v = Some s ->
  audio_data v <> [] ->
  get_decibel_level v (audio_data v) = Ok db ->
  map_brightness v db = Ok b ->
  render v =
  Ok (set_strip v
        (Some (mkNeoPixel (numPixels s)
                 (calls s ++ fill_calls 0 (numPixels s) (Color 0 b 0) ++ [Show])))).
Proof.
  intros Hs Hne Hdb Hb.
  rewrite (@render_frame v s Hs). unfold frame_calls.
  destruct (audio_data v) as [| x xs]; [ contradiction Hne; reflexivity | ].
  rewrite Hdb. cbn [bind]. rewrite Hb. reflexivity.
Qed.

Lemma log10_pow10 (n : nat) : log10 (10 ^ n) = INR n.
Proof.
  induction n as [| n IH].
  - simpl. apply log10_1.
  - rewrite S_INR. simpl pow.
    rewrite log10_mult by (try lra; apply pow_lt; lra).
    rewrite IH, log10_10. lra.
Qed.

(** X5.  One round of the LED thread's body, for a non-empty chunk and
    [min_db < max_db]: it never raises, and it sends exactly one full frame:
    every pixel of the strip, in index order, set to the same pure green
    [Color(0, b, 0)] with [0 <= b <= 255], then one [show()].  Nothing else
    of the object changes. *)
Theorem render_uniform_frame (v : AudioVisualizer) (s : NeoPixel) :
  strip v = Some s ->
  audio_data v <> [] ->
  min_db (config v) < max_db (config v) ->
  exists b : Z,
    (0 <= b <= 255)%Z /\
    render v =
    Ok (set_strip v
          (Some (mkNeoPixel (numPixels s)
                   (calls s ++ fill_calls 0 (numPixels s) (Color 0 b 0) ++ [Show])))).
Proof.
  intros Hs Hne Hlt.
  pose proof (get_decibel_level_eq v (audio_data v)) as Hdb.
  set (db := if np_any (audio_data v) then _ else _) in Hdb.
  pose proof (map_brightness_eq v db Hlt) as Hb.
  destruct (rescaled_bounds db Hlt) as [H0 H255].
  eexists. split; [ | exact (render_with_brightness v Hs Hne Hdb Hb) ].
  split.
  - apply py_int_nonneg. exact H0.
  - apply py_int_upper; assumption.
Qed.

Lemma render_uniform_frame_witness :
  exists b : Z,
    (0 <= b <= 255)%Z /\
    render (set_audio_data (self listening) [1 / 2]) =
    Ok (set_strip (set_audio_data (self listening) [1 / 2])
          (Some (mkNeoPixel 300
                   ([Begin] ++ fill_calls 0 300 (Color 0 b 0) ++ [Show])))).
Proof.
  apply (@render_uniform_frame (set_audio_data (self listening) [1 / 2])
           (strip_call (Adafruit_NeoPixel 300) Begin)).
  - reflexivity.
  - discriminate.
  - simpl. lra.
Defined.

(** X6.  Silence renders black: for a non-empty chunk of zeros and
    [min_db < max_db] the frame sent is the blanking frame, every pixel
    [Color(0, 0, 0)] and one [show()]. *)
Theorem render_silence_is_black (v : AudioVisualizer) (s : NeoPixel) :
  strip v = Some s ->
  audio_data v <> [] ->
  Forall (fun x => x = 0) (audio_data v) ->
  min_db (config v) < max_db (config v) ->
  render v =
  Ok (set_strip v
        (Some (mkNeoPixel (numPixels s) (calls s ++ blank_calls (numPixels s))))).
Proof.
  intros Hs Hne Hzero Hlt.
  apply (@render_with_brightness v s (min_db (config v)) 0%Z Hs Hne).
  - rewrite get_decibel_level_eq.
    apply np_any_false in Hzero. rewrite Hzero. reflexivity.
  - apply map_brightness_floor. exact Hlt.
Qed.

Lemma render_silence_is_black_witness :
  render (set_audio_data (self listening) (repeat 0 512)) =
  Ok (set_strip (set_audio_data (self listening) (repeat 0 512))
        (Some (mkNeoPixel 300 ([Begin] ++ blank_calls 300)))).
Proof.
  apply (@render_silence_is_black (set_audio_data (self listening) (repeat 0 512))
           (strip_call (Adafruit_NeoPixel 300) Begin)).
  - reflexivity.
  - discriminate.
  - apply Forall_forall. intros x Hx. apply repeat_spec in Hx. exact Hx.
  - simpl. lra.
Defined.

(** X7.  Saturation: a chunk whose loudness reaches the ceiling [max_db]
    (with [min_db < max_db]) renders every pixel at full green,
    [Color(0, 255, 0)]. *)
Theorem render_saturates (v : AudioVisualizer) (s : NeoPixel) (l : R) :
  strip v = Some s ->
  audio_data v <> [] ->
  get_decibel_level v (audio_data v) = Ok l ->
  max_db (config v) <= l ->
  min_db (config v) < max_db (config v) ->
  render v =
  Ok (set_strip v
        (Some (mkNeoPixel (numPixels s)
                 (calls s ++ fill_calls 0 (numPixels s) (Color 0 255 0) ++ [Show])))).
Proof.
  intros Hs Hne Hl Hloud Hlt.
  apply (@render_with_brightness v s l 255%Z Hs Hne Hl).
  apply map_brightness_saturated; assumption.
Qed.

(** Full-scale samples are above the shipped ceiling of 90 dB. *)
Lemma shipped_full_scale_is_loud : 90 <= 20 * log10 (1 / p_ref).
Proof.
  assert (H9 : log10 (10 ^ 9) = 9) by (rewrite log10_pow10; simpl; lra).
  assert (Hsq : log10 (1 / p_ref * (1 / p_ref)) = 2 * log10 (1 / p_ref)).
  { rewrite log10_mult by (unfold p_ref; lra). lra. }
  assert (Hlt : log10 (10 ^ 9) < log10 (1 / p_ref * (1 / p_ref))).
  { apply log10_increasing; [ apply pow_lt; lra | ].
    unfold p_ref. simpl. lra. }
  lra.
Qed.

Lemma render_saturates_witness :
  render (set_audio_data (self listening) [1]) =
  Ok (set_strip (set_audio_data (self listening) [1])
        (Some (mkNeoPixel 300
                 ([Begin] ++ fill_calls 0 300 (Color 0 255 0) ++ [Show])))).
Proof.
  apply (@render_saturates (set_audio_data (self listening) [1])
           (strip_call (Adafruit_NeoPixel 300) Begin) (20 * log10 (1 / p_ref))).
  - reflexivity.
  - discriminate.
  - rewrite (@get_decibel_level_config _ shipped [1]) by reflexivity.
    apply shipped_level_of_one.
  - simpl. apply shipped_full_scale_is_loud.
  - simpl. lra.
Defined.

End Rendering.

(** * More on the hand-off and on stopping *)

Section Schedules.

Import PyNum.
Import Main.
Open Scope R_scope.

Lemma filter_show_fill (lo n : nat) (color : HwColor) :
  filter is_show (fill_calls lo n color) = [].
Proof.
  unfold fill_calls. revert lo. induction n as [| n IH]; intros lo; simpl.
  - reflexivity.
  - apply IH.
Qed.

(** A frame holds at most one [show()]. *)
Lemma frame_calls_shows (v : AudioVisualizer) (n : nat) (chunk : list R)
    (frame : list StripCall) :
  frame_calls v n chunk = Ok frame -> (length (filter is_show frame) <= 1)%nat.
Proof.
  unfold frame_calls. destruct chunk as [| x xs].
  - intros H. injection H as <-. simpl. lia.
  - destruct (get_decibel_level v (x :: xs)) as [db | e]; [ | discriminate ].
    cbn [bind]. destruct (map_brightness v db) as [b | e]; [ | discriminate ].
    cbn [bind]. intros H. injection H as <-.
    rewrite filter_app, filter_show_fill. simpl. lia.
Qed.

(** What a successful [render] leaves alone, and how many frames it adds. *)
Lemma render_ok_inv (v v' : AudioVisualizer) :
  render v = Ok v' ->
  config v' = config v /\
  audio_data v' = audio_data v /\
  audio_event v' = audio_event v /\
  running v' = running v /\
  stream v' = stream v /\
  (shows (start v') <= shows (start v) + 1)%nat.
Proof.
  intros Hr. destruct (strip v) as [s |] eqn:Hs.
  - rewrite (@render_frame v s Hs) in Hr.
    destruct (frame_calls v (numPixels s) (audio_data v)) as [frame | e] eqn:Hf;
      [ | discriminate Hr ].
    cbn [bind] in Hr. injection Hr as <-.
    repeat split.
    unfold shows, strip_calls. cbn [self start set_strip strip calls]. rewrite Hs.
    rewrite filter_app, length_app.
    pose proof (frame_calls_shows v (numPixels s) (audio_data v) Hf). lia.
  - unfold render in Hr.
    destruct (0 <? length (audio_data v))%nat.
    + destruct (get_decibel_level v (audio_data v)) as [db | e]; [ | discriminate Hr ].
      cbn [bind] in Hr.
      destruct (map_brightness v db) as [b | e]; [ | discriminate Hr ].
      cbn [bind] in Hr. rewrite Hs in Hr. discriminate Hr.
    + injection Hr as <-. repeat split. lia.
Qed.

Lemma shows_self (p : Process) : shows p = shows (start (self p)).
Proof. reflexivity. Qed.

(** The invariant of the hand-off: frames committed plus wake-ups owed never
    exceed [d]; and the thread is only about to clear an event that is set. *)
Definition owes_at_most (d : nat) (p : Process) : Prop :=
  (shows p + pending p <= d)%nat /\
  (led_thread p = AtClear -> audio_event (self p) = true).

Lemma audio_callback_owes (d : nat) (p : Process) (indata : list R) (frames : Z)
    (status : CallbackFlags) :
  owes_at_most d p ->
  owes_at_most (d + (if flags_bool status then 0 else 1))
               (audio_callback p indata frames tt status).
Proof.
  intros [Hcount Hclear]. unfold audio_callback.
  destruct (flags_bool status).
  - split.
    + change (shows (print p (ErrorInAudioStream status))) with (shows p).
      change (pending (print p (ErrorInAudioStream status))) with (pending p). lia.
    + exact Hclear.
  - split.
    + unfold shows, strip_calls, pending in *. cbn in *.
      destruct (audio_event (self p)), (led_thread p); lia.
    + intros _. reflexivity.
Qed.

Lemma update_leds_step_owes (d : nat) (p p' : Process) :
  owes_at_most d p -> update_leds_step p = Some p' -> owes_at_most d p'.
Proof.
  intros [Hcount Hclear] Hstep. unfold update_leds_step in Hstep.
  destruct (led_thread p) eqn:Hpc; try discriminate Hstep.
  - (* AtWhile *)
    injection Hstep as <-. split.
    + unfold shows, strip_calls, pending in *. cbn in *. rewrite Hpc in Hcount.
      destruct (running (self p)), (audio_event (self p)); cbn; lia.
    + cbn. destruct (running (self p)); discriminate.
  - (* AtWait *)
    destruct (audio_event (self p)) eqn:Hev; [ | discriminate Hstep ].
    injection Hstep as <-. split.
    + unfold shows, strip_calls, pending in *. cbn in *.
      rewrite Hpc, Hev in Hcount. rewrite Hev. cbn. lia.
    + intros _. exact Hev.
  - (* AtClear *)
    injection Hstep as <-. specialize (Hclear eq_refl). split.
    + unfold shows, strip_calls, pending in *. cbn in *.
      rewrite Hpc in Hcount. rewrite Hclear in Hcount. lia.
    + cbn. discriminate.
  - (* AtCheck *)
    injection Hstep as <-. split.
    + unfold shows, strip_calls, pending in *. cbn in *. rewrite Hpc in Hcount.
      destruct (running (self p)), (audio_event (self p)); cbn; lia.
    + cbn. destruct (running (self p)); discriminate.
  - (* AtRender *)
    destruct (render (self p)) as [v' | e] eqn:Hr; injection Hstep as <-.
    + destruct (render_ok_inv (self p) Hr) as (_ & _ & Hev & _ & _ & Hshows).
      split; [ | cbn; discriminate ].
      rewrite shows_self. cbn [self goto with_self].
      rewrite (shows_self p) in Hcount.
      unfold pending in *. cbn [self goto with_self led_thread].
      rewrite Hev. rewrite Hpc in Hcount. lia.
    + split; [ | cbn; discriminate ].
      unfold shows, strip_calls, pending in *. cbn in *. rewrite Hpc in Hcount.
      destruct (audio_event (self p)); lia.
Qed.

Lemma exec_owes (schedule : list Event) (d : nat) (p : Process) :
  owes_at_most d p -> owes_at_most (d + good_deliveries schedule) (exec p schedule).
Proof.
  unfold exec, good_deliveries. revert d p.
  induction schedule as [| ev rest IH]; intros d p Hp.
  - simpl. rewrite Nat.add_0_r. exact Hp.
  - simpl fold_left. destruct ev as [indata frames status | ].
    + pose proof (audio_callback_owes indata frames status Hp) as Hp'.
      apply IH in Hp'.
      change (exec_event p (Deliver indata frames status))
        with (audio_callback p indata frames tt status).
      change (filter good_delivery (Deliver indata frames status :: rest))
        with (if negb (flags_bool status)
              then Deliver indata frames status :: filter good_delivery rest
              else filter good_delivery rest).
      destruct (flags_bool status); cbn [negb length].
      * rewrite Nat.add_0_r in Hp'. exact Hp'.
      * replace (d + S (length (filter good_delivery rest)))%nat
          with (d + 1 + length (filter good_delivery rest))%nat by lia.
        exact Hp'.
    + simpl filter. unfold exec_event.
      destruct (update_leds_step p) as [p' |] eqn:Hstep.
      * apply IH. exact (update_leds_step_owes Hp Hstep).
      * apply IH. exact Hp.
Qed.

(** X8.  No frame without a new chunk.  Start with the event clear and the
    LED thread not yet started, at the head of its loop or blocked in
    [wait()].  Then, however deliveries and steps of the LED thread
    interleave, the number of frames committed ([show()] calls) grows by at
    most the number of chunks delivered with an empty status: the thread
    never commits a frame unprompted.  The bound is on the number of frames,
    not on which chunk a frame shows: a frame shows what the slot holds when
    the body runs. *)
Theorem frames_bounded_by_deliveries (p : Process) (schedule : list Event) :
  audio_event (self p) = false ->
  led_thread p = NotStarted \/ led_thread p = AtWhile \/ led_thread p = AtWait ->
  (shows (exec p schedule) <= shows p + good_deliveries schedule)%nat.
Proof.
  intros Hev Hpc.
  assert (H0 : owes_at_most (shows p) p).
  { split.
    - unfold pending. rewrite Hev.
      destruct Hpc as [-> | [-> | ->]]; lia.
    - intros Habs. destruct Hpc as [H | [H | H]]; rewrite H in Habs; discriminate. }
  destruct (exec_owes schedule H0) as [Hcount _]. lia.
Qed.

Lemma frames_bounded_by_deliveries_witness :
  (shows (exec listening mixed_schedule)
   <= shows listening + good_deliveries mixed_schedule)%nat.
Proof.
  apply (@frames_bounded_by_deliveries listening).
  - reflexivity.
  - right. right. reflexivity.
Defined.

(** What no step of the LED thread changes. *)
Lemma update_leds_step_fields (p p' : Process) :
  update_leds_step p = Some p' ->
  config (self p') = config (self p) /\
  audio_data (self p') = audio_data (self p) /\
  running (self p') = running (self p) /\
  stream (self p') = stream (self p) /\
  stdout p' = stdout p.
Proof.
  intros Hstep. unfold update_leds_step in Hstep.
  destruct (led_thread p); try discriminate Hstep.
  - injection Hstep as <-. repeat split.
  - destruct (audio_event (self p)); [ | discriminate Hstep ].
    injection Hstep as <-. repeat split.
  - injection Hstep as <-. repeat split.
  - injection Hstep as <-. repeat split.
  - destruct (render (self p)) as [v' | e] eqn:Hr; injection Hstep as <-.
    + destruct (render_ok_inv (self p) Hr) as (Hc & Hd & _ & Hrun & Hst & _).
      repeat split; assumption.
    + repeat split.
Qed.

Lemma audio_callback_fields (p : Process) (indata : list R) (frames : Z)
    (status : CallbackFlags) :
  config (self (audio_callback p indata frames tt status)) = config (self p) /\
  running (self (audio_callback p indata frames tt status)) = running (self p) /\
  stream (self (audio_callback p indata frames tt status)) = stream (self p) /\
  led_thread (audio_callback p indata frames tt status) = led_thread p.
Proof.
  unfold audio_callback. destruct (flags_bool status); repeat split.
Qed.

Lemma exec_app (p : Process) (first second : list Event) :
  exec p (first ++ second) = exec (exec p first) second.
Proof. unfold exec. apply fold_left_app. Qed.


(** X9.  Neither deliveries nor steps of the LED thread, in any number and
    order, change the configuration, the running flag or the stream: of the
    code that runs while [run] sleeps, nothing stops the pipeline. *)
Theorem exec_keeps_configuration (schedule : list Event) (p : Process) :
  config (self (exec p schedule)) = config (self p) /\
  running (self (exec p schedule)) = running (self p) /\
  stream (self (exec p schedule)) = stream (self p).
Proof.
  unfold exec. revert p. induction schedule as [| ev rest IH]; intros p.
  - repeat split.
  - simpl fold_left. destruct (IH (exec_event p ev)) as (Hc & Hr & Hs).
    rewrite Hc, Hr, Hs. destruct ev as [indata frames status | ].
    + destruct (audio_callback_fields p indata frames status) as (H1 & H2 & H3 & _).
      repeat split; assumption.
    + unfold exec_event. destruct (update_leds_step p) as [p' |] eqn:Hstep.
      * destruct (update_leds_step_fields p Hstep) as (H1 & _ & H2 & H3 & _).
        repeat split; assumption.
      * repeat split.
Qed.

(** Without a good delivery the slot keeps its chunk. *)
Lemma slot_kept (schedule : list Event) (p : Process) :
  good_deliveries schedule = 0%nat ->
  audio_data (self (exec p schedule)) = audio_data (self p).
Proof.
  unfold exec, good_deliveries. revert p.
  induction schedule as [| ev rest IH]; intros p Hgood.
  - reflexivity.
  - simpl fold_left. destruct ev as [indata frames status | ].
    + change (filter good_delivery (Deliver indata frames status :: rest))
        with (if negb (flags_bool status)
              then Deliver indata frames status :: filter good_delivery rest
              else filter good_delivery rest) in Hgood.
      change (exec_event p (Deliver indata frames status))
        with (audio_callback p indata frames tt status).
      rewrite IH.
      * unfold audio_callback.
        destruct (flags_bool status); [ reflexivity | discriminate Hgood ].
      * destruct (flags_bool status); [ exact Hgood | discriminate Hgood ].
    + simpl filter in Hgood. rewrite (IH _ Hgood). unfold exec_event.
      destruct (update_leds_step p) as [p' |] eqn:Hstep; [ | reflexivity ].
      apply (update_leds_step_fields p Hstep).
Qed.

(** X10.  The slot holds the latest good chunk.  After any schedule in
    which [C] is the last chunk delivered with an empty status,
    [self.audio_data] is [C]: whatever came before is overwritten, and
    neither the LED thread nor a delivery with an error status writes the
    slot afterwards. *)
Theorem slot_holds_latest_chunk (p : Process) (before after : list Event)
    (C : list R) (frames : Z) :
  good_deliveries after = 0%nat ->
  audio_data (self (exec p (before ++ Deliver C frames 0%N :: after))) = C.
Proof.
  intros Hafter.
  rewrite exec_app.
  change (exec (exec p before) (Deliver C frames 0%N :: after))
    with (exec (audio_callback (exec p before) C frames tt 0%N) after).
  rewrite (slot_kept after _ Hafter). reflexivity.
Qed.

Lemma slot_holds_latest_chunk_witness :
  audio_data
    (self (exec listening
             (mixed_schedule ++ Deliver [1 / 4] 1 0%N :: [LedStep; LedStep; LedStep])))
  = [1 / 4].
Proof.
  apply (@slot_holds_latest_chunk listening mixed_schedule
           [LedStep; LedStep; LedStep] [1 / 4] 1%Z).
  reflexivity.
Defined.

Lemma update_leds_returned (fuel : nat) (p : Process) :
  led_thread p = Returned -> update_leds fuel p = p.
Proof.
  intros Hpc. destruct fuel as [| fuel]; [ reflexivity | ].
  simpl. unfold update_leds_step. rewrite Hpc. reflexivity.
Qed.

(** X11.  A clean stop.  If Ctrl+C is handled while the LED thread has not
    yet passed the test [if not self.running] of its round, the thread ends
    within three steps without a single strip call: the blanking frame of
    the handler stays the last thing the strip received. *)
Theorem stop_before_test_is_clean (p : Process) (s : NeoPixel) (fuel : nat) :
  before_running_test (led_thread p) = true ->
  strip (self p) = Some s ->
  (3 <= fuel)%nat ->
  exists p' : Process,
    run_except p KeyboardInterrupt = Ok p' /\
    strip_calls p' = calls s ++ blank_calls (numPixels s) /\
    led_thread (update_leds fuel p') = Returned /\
    strip_calls (update_leds fuel p') = calls s ++ blank_calls (numPixels s).
Proof.
  intros Hpc Hs Hfuel.
  destruct p as [[c st ad ev rn sm] out pc]. simpl in Hpc, Hs. subst st.
  destruct (blank_is_blank_calls s (numPixels s)) as [Hc _].
  do 3 (destruct fuel as [| fuel]; [ lia | ]).
  unfold run_except. cbn -[blank update_leds].
  destruct pc; try discriminate Hpc;
    destruct sm as [sm |];
    (eexists; split; [ reflexivity | ]; split; [ exact Hc | ];
     cbn -[blank update_leds];
     repeat (rewrite update_leds_returned by reflexivity);
     try (cbn -[blank]; rewrite update_leds_returned by reflexivity);
     split; [ reflexivity | exact Hc ]).
Qed.

Lemma stop_before_test_is_clean_witness :
  exists p' : Process,
    run_except listening KeyboardInterrupt = Ok p' /\
    strip_calls p' = [Begin] ++ blank_calls 300 /\
    led_thread (update_leds 5 p') = Returned /\
    strip_calls (update_leds 5 p') = [Begin] ++ blank_calls 300.
Proof.
  apply (@stop_before_test_is_clean listening
           (strip_call (Adafruit_NeoPixel 300) Begin) 5);
    try reflexivity. lia.
Defined.

End Schedules.

(** * More on [run] and its Ctrl+C handler *)

Section Stopping.

Import PyNum.
Import Main.
Open Scope R_scope.

(** X12.  A late frame.  [run] does not wait for the LED thread.  If Ctrl+C
    is handled while the thread is past its test of [self.running] with a
    non-empty chunk in the slot (and [min_db < max_db]), the handler blanks
    the strip and returns, and the next step of the thread sends a full
    green frame after the blanking frame. *)
Theorem stop_after_test_renders_late (p : Process) (s : NeoPixel) :
  led_thread p = AtRender ->
  strip (self p) = Some s ->
  audio_data (self p) <> [] ->
  min_db (config (self p)) < max_db (config (self p)) ->
  exists (p' : Process) (b : Z),
    run_except p KeyboardInterrupt = Ok p' /\
    running (self p') = false /\
    (0 <= b <= 255)%Z /\
    strip_calls p' = calls s ++ blank_calls (numPixels s) /\
    strip_calls (exec p' [LedStep]) =
      (calls s ++ blank_calls (numPixels s))
      ++ fill_calls 0 (numPixels s) (Color 0 b 0) ++ [Show].
Proof.
  intros Hpc Hs Hne Hlt.
  destruct p as [[c st ad ev rn sm] out pc]. simpl in Hpc, Hs, Hne, Hlt. subst st pc.
  destruct (blank_is_blank_calls s (numPixels s)) as [Hc Hn].
  set (v0 := mkAudioVisualizer c (Some s) ad ev rn sm).
  pose proof (get_decibel_level_eq v0 ad) as Hdb.
  set (db := if np_any ad then _ else _) in Hdb.
  pose proof (map_brightness_eq v0 db Hlt) as Hb.
  destruct (rescaled_bounds db Hlt) as [H0 H255].
  set (b := py_int _) in Hb.
  assert (Hrange : (0 <= b <= 255)%Z).
  { subst b. split; [ apply py_int_nonneg | apply py_int_upper ]; assumption. }
  assert (Hrender : forall sm' : option InputStream,
             render (mkAudioVisualizer c (Some (blank s (numPixels s))) ad true false sm')
             = Ok (set_strip
                     (mkAudioVisualizer c (Some (blank s (numPixels s))) ad true false sm')
                     (Some (mkNeoPixel (numPixels s)
                              ((calls s ++ blank_calls (numPixels s))
                               ++ fill_calls 0 (numPixels s) (Color 0 b 0) ++ [Show]))))).
  { intros sm'.
    rewrite (@render_with_brightness _ (blank s (numPixels s)) db b).
    - rewrite Hc, Hn. reflexivity.
    - reflexivity.
    - exact Hne.
    - rewrite (@get_decibel_level_config _ v0 ad) by reflexivity. exact Hdb.
    - rewrite (@map_brightness_config _ v0 db) by reflexivity. exact Hb. }
  clearbody b. clear Hdb Hb. subst v0.
  unfold run_except. cbn -[blank].
  destruct sm as [sm |];
    (eexists; exists b; split; [ reflexivity | ]; split; [ reflexivity | ];
     split; [ exact Hrange | ]; split; [ exact Hc | ];
     unfold exec, strip_calls; cbn -[blank render];
     unfold set_stream, set_audio_event, set_running;
     cbn [config strip audio_data audio_event running stream];
     unfold set_strip at 1;
     cbn [config strip audio_data audio_event running stream];
     rewrite Hrender; reflexivity).
Qed.

Lemma stop_after_test_renders_late_witness :
  exists (p' : Process) (b : Z),
    run_except (exec listening [Deliver [1 / 2] 1 0%N; LedStep; LedStep; LedStep])
               KeyboardInterrupt = Ok p' /\
    running (self p') = false /\
    (0 <= b <= 255)%Z /\
    strip_calls p' = [Begin] ++ blank_calls 300 /\
    strip_calls (exec p' [LedStep]) =
      ([Begin] ++ blank_calls 300) ++ fill_calls 0 300 (Color 0 b 0) ++ [Show].
Proof.
  apply (@stop_after_test_renders_late
           (exec listening [Deliver [1 / 2] 1 0%N; LedStep; LedStep; LedStep])
           (strip_call (Adafruit_NeoPixel 300) Begin)).
  - reflexivity.
  - reflexivity.
  - discriminate.
  - simpl. lra.
Defined.


End Stopping.

(** * More on light.py *)

Section Script.

Import PyNum.
Import Light.
Open Scope R_scope.

Lemma py_int_below (x : R) (z : Z) : 0 <= x -> x < IZR (z + 1) -> (py_int x <= z)%Z.
Proof.
  intros Hx Hz. unfold py_int.
  destruct (Rle_dec 0 x) as [_ | Hn]; [ | contradiction ].
  destruct (Zfloor_bound x) as [Hlo _].
  assert (H : (Zfloor x < z + 1)%Z) by (apply lt_IZR; lra).
  lia.
Qed.

Lemma ramp_le (x y t : R) : 0 < t -> x <= y -> 255 * x / t <= 255 * y / t.
Proof.
  intros Ht Hxy. unfold Rdiv.
  apply Rmult_le_compat_r; [ left; apply Rinv_0_lt_compat; exact Ht | lra ].
Qed.

(** With a non-zero sensitivity no division of [calculate_color] fails. *)
Lemma calculate_color_ok (cfg : Config) (a : R) :
  SENSITIVITY cfg <> 0 -> exists c : Z * Z * Z, calculate_color cfg a = Ok c.
Proof.
  intros HS. unfold calculate_color.
  assert (Ht : SENSITIVITY cfg / 3 <> 0) by (intros H; apply HS; lra).
  destruct (Rlt_dec a (SENSITIVITY cfg / 3));
    [ | destruct (Rlt_dec a (2 * SENSITIVITY cfg / 3)) ];
    rewrite py_div_ok by exact Ht; eexists; reflexivity.
Qed.

Lemma led_colors_loop_repeat (cfg : Config) (a : R) (c : Z * Z * Z) (n : nat)
    (acc : list (Z * Z * Z)) :
  calculate_color cfg a = Ok c ->
  led_colors_loop cfg a n acc = Ok (acc ++ repeat c n).
Proof.
  intros Hc. revert acc. induction n as [| n IH]; intros acc.
  - simpl. rewrite app_nil_r. reflexivity.
  - simpl. rewrite Hc. cbn [bind]. rewrite IH, <- app_assoc. reflexivity.
Qed.

Lemma grb_calls_repeat (i n : nat) (r g b : Z) :
  grb_calls i (repeat (r, g, b) n) = fill_calls i n (Color g r b).
Proof.
  unfold fill_calls. revert i. induction n as [| n IH]; intros i.
  - reflexivity.
  - simpl. rewrite IH. reflexivity.
Qed.

(** The callback for a chunk whose colour is known: one uniform frame. *)
Lemma audio_callback_with_color (cfg : Config) (st : Script) (s : NeoPixel)
    (indata : list R) (frames : Z) (r g b : Z) :
  LED_TYPE cfg = WS281x ->
  led_strip st = Some s ->
  indata <> [] ->
  calculate_color cfg (rms indata) = Ok (r, g, b) ->
  audio_callback cfg st indata frames tt 0%N =
  Ok (with_strip st
        (mkNeoPixel (numPixels s)
           (calls s ++ fill_calls 0 (LED_COUNT cfg) (Color g r b) ++ [Show]))).
Proof.
  intros Htype Hs Hne Hc. unfold audio_callback. cbn [flags_bool N.eqb negb].
  rewrite (np_mean_square Hne). cbn [bind].
  unfold np_sqrt.
  destruct (Rle_dec 0 (np_sum (np_square indata) / INR (length indata))) as [_ | Hn];
    [ | contradiction Hn; apply mean_square_nonneg ].
  cbn [bind]. fold (rms indata).
  rewrite (led_colors_loop_repeat cfg (rms indata) (LED_COUNT cfg) [] Hc).
  cbn [bind app]. unfold set_leds. rewrite Htype, Hs.
  destruct (set_leds_ws281x_calls s 0 (repeat (r, g, b) (LED_COUNT cfg))) as [Hcalls Hnum].
  unfold strip_call. rewrite Hcalls, Hnum, grb_calls_repeat, <- app_assoc.
  reflexivity.
Qed.

(** X14.  The script's callback on a good chunk.  In WS281x mode with the
    strip created, a non-empty chunk, an empty status and a non-zero
    sensitivity, [audio_callback] never raises; it sends exactly one frame:
    each of the [LED_COUNT] pixels, in index order, gets the colour of the
    chunk's RMS amplitude with red and green exchanged, and then one
    [show()] commits it. *)
Theorem audio_callback_uniform_frame (cfg : Config) (st : Script) (s : NeoPixel)
    (indata : list R) (frames : Z) :
  LED_TYPE cfg = WS281x ->
  led_strip st = Some s ->
  indata <> [] ->
  SENSITIVITY cfg <> 0 ->
  exists r g b : Z,
    calculate_color cfg (rms indata) = Ok (r, g, b) /\
    audio_callback cfg st indata frames tt 0%N =
    Ok (with_strip st
          (mkNeoPixel (numPixels s)
             (calls s ++ fill_calls 0 (LED_COUNT cfg) (Color g r b) ++ [Show]))).
Proof.
  intros Htype Hs Hne HS.
  destruct (calculate_color_ok cfg (rms indata) HS) as [[[r g] b] Hc].
  exists r, g, b. split; [ exact Hc | ].
  apply audio_callback_with_color; assumption.
Qed.

Lemma audio_callback_uniform_frame_witness :
  exists r g b : Z,
    calculate_color shipped (rms [1 / 2; - (1 / 2)]) = Ok (r, g, b) /\
    audio_callback shipped script_after_begin [1 / 2; - (1 / 2)] 2 tt 0%N =
    Ok (with_strip script_after_begin
          (mkNeoPixel 30 ([Begin] ++ fill_calls 0 30 (Color g r b) ++ [Show]))).
Proof.
  apply (@audio_callback_uniform_frame shipped script_after_begin
           (strip_call (Adafruit_NeoPixel 30) Begin) [1 / 2; - (1 / 2)] 2%Z).
  - reflexivity.
  - reflexivity.
  - discriminate.
  - simpl. lra.
Defined.

Lemma np_sum_square_unit (xs : list R) :
  Forall (fun x => -1 <= x <= 1) xs -> np_sum (np_square xs) <= INR (length xs).
Proof.
  induction 1 as [| x xs Hx _ IH].
  - simpl. lra.
  - change (np_sum (np_square (x :: xs))) with (x * x + np_sum (np_square xs)).
    change (length (x :: xs)) with (S (length xs)). rewrite S_INR.
    assert (x * x <= 1) by nra. lra.
Qed.

Lemma rms_unit (xs : list R) :
  xs <> [] -> Forall (fun x => -1 <= x <= 1) xs -> rms xs <= 1.
Proof.
  intros Hne Hall. unfold rms. rewrite <- sqrt_1.
  apply sqrt_le_1_alt.
  assert (Hn : 0 < INR (length xs)).
  { apply lt_0_INR. destruct xs; [ contradiction Hne; reflexivity | simpl; lia ]. }
  pose proof (np_sum_square_unit Hall) as Hsum.
  apply Rmult_le_reg_r with (INR (length xs)); [ exact Hn | ].
  unfold Rdiv. rewrite Rmult_assoc, Rinv_l by lra. lra.
Qed.

(** X15.  With the shipped configuration (30 LEDs, sensitivity 100) and
    samples between -1 and 1, which is what a float32 stream delivers, the
    callback never leaves the lowest band: every pixel is sent as
    [Color(g, 0, 255 - g)] with [0 <= g <= 7], that is red 0, green at most
    7 and blue at least 248. *)
Theorem normalised_audio_stays_blue (st : Script) (s : NeoPixel)
    (indata : list R) (frames : Z) :
  led_strip st = Some s ->
  indata <> [] ->
  Forall (fun x => -1 <= x <= 1) indata ->
  exists g : Z,
    (0 <= g <= 7)%Z /\
    audio_callback shipped st indata frames tt 0%N =
    Ok (with_strip st
          (mkNeoPixel (numPixels s)
             (calls s ++ fill_calls 0 30 (Color g 0 (255 - g)) ++ [Show]))).
Proof.
  intros Hs Hne Hall.
  pose proof (rms_unit Hne Hall) as H1.
  pose proof (rms_nonneg indata) as H0.
  assert (HS : 0 < SENSITIVITY shipped) by (simpl; lra).
  assert (Hband : rms indata < SENSITIVITY shipped / 3) by (simpl; lra).
  pose proof (calculate_color_band1 shipped HS Hband) as Hc.
  set (g := py_int (255 * rms indata / (SENSITIVITY shipped / 3))) in Hc.
  exists g. split.
  - subst g. split.
    + apply py_int_nonneg. apply Rmult_le_pos; [ lra | ].
      left. apply Rinv_0_lt_compat. simpl. lra.
    + assert (Hq : 255 * rms indata / (SENSITIVITY shipped / 3) <= 255 * 1 / (100 / 3)).
      { simpl SENSITIVITY. apply ramp_le; lra. }
      apply py_int_below.
      * apply Rmult_le_pos; [ lra | ]. left. apply Rinv_0_lt_compat. simpl. lra.
      * simpl (IZR (7 + 1)). lra.
  - exact (@audio_callback_with_color shipped st s indata frames 0%Z g (255 - g)%Z
             eq_refl Hs Hne Hc).
Qed.

Lemma normalised_audio_stays_blue_witness :
  exists g : Z,
    (0 <= g <= 7)%Z /\
    audio_callback shipped script_after_begin [1; -1; 1 / 2] 3 tt 0%N =
    Ok (with_strip script_after_begin
          (mkNeoPixel 30 ([Begin] ++ fill_calls 0 30 (Color g 0 (255 - g)) ++ [Show]))).
Proof.
  apply (@normalised_audio_stays_blue script_after_begin
           (strip_call (Adafruit_NeoPixel 30) Begin) [1; -1; 1 / 2] 3%Z).
  - reflexivity.
  - discriminate.
  - repeat constructor; lra.
Defined.

End Script.

(** * More on the colour sweep, the Blinkt branch and the script's exit *)

Section Sweep.

Import PyNum.
Import Light.
Open Scope R_scope.

Lemma set_leds_blinkt_calls (st : Script) (i : nat) (led_data : list (Z * Z * Z)) :
  blinkt (set_leds_blinkt st i led_data) = blinkt st ++ rgb_pixels i led_data /\
  led_strip (set_leds_blinkt st i led_data) = led_strip st /\
  stdout (set_leds_blinkt st i led_data) = stdout st.
Proof.
  revert st i. induction led_data as [| [[r g] b] rest IH]; intros st i.
  - simpl. rewrite app_nil_r. repeat split.
  - simpl. destruct (IH (blinkt_call st (SetPixel i r g b)) (S i)) as (Hb & Hs & Ho).
    rewrite Hb, Hs, Ho. simpl. rewrite <- app_assoc. repeat split.
Qed.

(** X16.  In Blinkt mode [set_leds] never raises, also when no WS281x strip
    was ever created; the colour (r, g, b) at position i is passed on as
    [blinkt.set_pixel(i, r, g, b)], in the order given and with no exchange
    of channels, then [blinkt.show()] is called; the WS281x strip and the
    console are not touched. *)
Theorem set_leds_blinkt_passes_rgb (cfg : Config) (st : Script)
    (led_data : list (Z * Z * Z)) :
  LED_TYPE cfg = Blinkt ->
  exists st' : Script,
    set_leds cfg st led_data = Ok st' /\
    blinkt st' = blinkt st ++ rgb_pixels 0 led_data ++ [BlinktShow] /\
    led_strip st' = led_strip st /\
    stdout st' = stdout st.
Proof.
  intros Htype. unfold set_leds. rewrite Htype.
  eexists. split; [ reflexivity | ].
  destruct (set_leds_blinkt_calls st 0 led_data) as (Hb & Hs & Ho).
  simpl. rewrite Hb, Hs, Ho, <- app_assoc. repeat split.
Qed.

Lemma set_leds_blinkt_passes_rgb_witness :
  exists st' : Script,
    set_leds (mkConfig 8 Blinkt 100) (loaded (mkConfig 8 Blinkt 100))
             [(1, 2, 3)%Z; (255, 0, 7)%Z] = Ok st' /\
    blinkt st' = [SetClearOnExit] ++ rgb_pixels 0 [(1, 2, 3)%Z; (255, 0, 7)%Z] ++ [BlinktShow] /\
    led_strip st' = None /\
    stdout st' = [].
Proof.
  apply (@set_leds_blinkt_passes_rgb (mkConfig 8 Blinkt 100)
           (loaded (mkConfig 8 Blinkt 100)) [(1, 2, 3)%Z; (255, 0, 7)%Z]).
  reflexivity.
Defined.

(** X17.  The sweep.  For a positive sensitivity and amplitudes
    [0 <= a1 <= a2], both colours exist, the red channel of the louder
    amplitude is at least that of the quieter one, and its blue channel is at
    most that of the quieter one: red only rises and blue only falls as the
    sound gets louder. *)
Theorem gradient_sweep (cfg : Config) (a1 a2 : R) :
  0 < SENSITIVITY cfg -> 0 <= a1 -> a1 <= a2 ->
  exists r1 g1 b1 r2 g2 b2 : Z,
    calculate_color cfg a1 = Ok (r1, g1, b1) /\
    calculate_color cfg a2 = Ok (r2, g2, b2) /\
    (r1 <= r2)%Z /\ (b2 <= b1)%Z.
Proof.
  intros HS H0 H12.
  set (t := SENSITIVITY cfg / 3).
  assert (Ht : 0 < t) by (unfold t; lra).
  destruct (Rlt_dec a1 t) as [L1 | L1].
  - (* a1 in the first band *)
    rewrite (calculate_color_band1 cfg HS L1). fold t.
    destruct (@band_ramp_channel a1 t Ht H0 (Rlt_le _ _ L1)) as [[Hg0 Hg1] _].
    destruct (Rlt_dec a2 t) as [L2 | L2].
    + rewrite (calculate_color_band1 cfg HS L2). fold t.
      do 6 eexists. split; [ reflexivity | ]. split; [ reflexivity | ].
      pose proof (py_int_le (ramp_le Ht H12)). lia.
    + destruct (Rlt_dec a2 (2 * SENSITIVITY cfg / 3)) as [M2 | M2].
      * rewrite calculate_color_band2 by (try assumption; fold t; lra). fold t.
        do 6 eexists. split; [ reflexivity | ]. split; [ reflexivity | ].
        destruct (@band_ramp_channel (a2 - t) t) as [[Hr0 _] _];
          try (unfold t in *; lra).
        lia.
      * rewrite (@calculate_color_band3 cfg a2) by (try assumption; lra).
        do 6 eexists. split; [ reflexivity | ]. split; [ reflexivity | ]. lia.
  - destruct (Rlt_dec a1 (2 * SENSITIVITY cfg / 3)) as [M1 | M1].
    + (* a1 in the second band *)
      rewrite (@calculate_color_band2 cfg a1) by (try assumption; fold t; lra). fold t.
      destruct (@band_ramp_channel (a1 - t) t) as [[_ Hr1] _];
        try (unfold t in *; lra).
      destruct (Rlt_dec a2 (2 * SENSITIVITY cfg / 3)) as [M2 | M2].
      * rewrite (@calculate_color_band2 cfg a2) by (try assumption; fold t; lra). fold t.
        do 6 eexists. split; [ reflexivity | ]. split; [ reflexivity | ].
        assert (Hle : a1 - t <= a2 - t) by lra.
        pose proof (py_int_le (ramp_le Ht Hle)). lia.
      * rewrite (@calculate_color_band3 cfg a2) by (try assumption; lra).
        do 6 eexists. split; [ reflexivity | ]. split; [ reflexivity | ]. lia.
    + (* a1 in the third band, and so is a2 *)
      rewrite (@calculate_color_band3 cfg a1) by (try assumption; lra).
      rewrite (@calculate_color_band3 cfg a2) by (try assumption; lra).
      do 6 eexists. split; [ reflexivity | ]. split; [ reflexivity | ]. lia.
Qed.

Lemma gradient_sweep_witness :
  exists r1 g1 b1 r2 g2 b2 : Z,
    calculate_color shipped 20 = Ok (r1, g1, b1) /\
    calculate_color shipped 150 = Ok (r2, g2, b2) /\
    (r1 <= r2)%Z /\ (b2 <= b1)%Z.
Proof.
  apply (@gradient_sweep shipped 20 150); simpl; lra.
Defined.

(** X19.  However the [try] body of the script ends, by Ctrl+C or by any
    exception, and whatever the callbacks did before, the [finally] clause
    clears the LEDs last and then prints its line: in WS281x mode (with the
    strip still bound) the strip's calls end with the blanking frame for
    [LED_COUNT] pixels; in Blinkt mode the calls end with [blinkt.clear()],
    [blinkt.show()]. *)
Theorem script_clears_on_every_exit (cfg : Config) (st : Script)
    (body : Script -> Script) (raised : Raised) :
  let at_exit := body (print (main_init cfg st) ListeningForAudio) in
  match LED_TYPE cfg with
  | WS281x =>
      forall s : NeoPixel,
        led_strip at_exit = Some s ->
        exists (st' : Script) (s' : NeoPixel) (printed : list Printed),
          main cfg st body raised = Ok st' /\
          led_strip st' = Some s' /\
          calls s' = calls s ++ blank_calls (LED_COUNT cfg) /\
          stdout st' = printed ++ [LedsCleared]
  | Blinkt =>
      exists (st' : Script) (printed : list Printed),
        main cfg st body raised = Ok st' /\
        blinkt st' = blinkt at_exit ++ [BlinktClear; BlinktShow] /\
        stdout st' = printed ++ [LedsCleared]
  end.
Proof.
  intros at_exit. unfold main, main_finally. fold at_exit.
  destruct (LED_TYPE cfg).
  - intros s Hs.
    assert (He : led_strip (main_except at_exit raised) = Some s)
      by (destruct raised; exact Hs).
    rewrite He. do 3 eexists. split; [ reflexivity | ].
    split; [ reflexivity | ]. split; [ apply blank_is_blank_calls | reflexivity ].
  - do 2 eexists. split; [ reflexivity | ]. split; [ | reflexivity ].
    simpl. rewrite <- app_assoc. destruct raised; reflexivity.
Qed.

End Sweep.
